(** * Qwen-Pi CLI chat: a shallow embedding of [main.py]

    The program is a read-eval-print loop around two HTTP wrappers,
    [get_factual_answer_from_qwen] and [restyle_text_with_pi].  Both are
    embedded as computations in a small trace-and-exception monad; the
    [requests] library, the console and [str()] of foreign values are the
    environment and are passed in as a [world].

    Conventions.
    - A Python [str] is a Rocq [string] (the bytes of its UTF-8 text).
      [str.lower] is modelled on the letters A-Z; no character outside ASCII
      lower-cases to one of e, x, i, t alone, so the comparison of
      [user_input.lower()] with ['exit'] is exact.
    - A value decoded from JSON, and the dict literals the program builds,
      are values of [pyval]; a dict is the list of its items in insertion
      order.
    - The two float literals [0.0] and [0.7] are carried as the decimal
      fractions written in the source.
    - In the first embedding a [print] succeeds, a request returns and
      [input] gives a line or meets the end of input.  The statements
      about every way a session can end are made over a second
      embedding of the same text, [main_io], in which a [print] and
      [input] may raise and a request may never return. *)

From Stdlib Require Import String Ascii List ZArith QArith Bool Lia.
From Stdlib Require Import DecimalString.
Import ListNotations.
Local Open Scope list_scope.
Local Open Scope string_scope.

Set Implicit Arguments.
#[local] Set Warnings "-register-all".

(** ** Python values *)

Inductive pyval : Type :=
| JNull                                   (* None *)
| JBool (b : bool)
| JInt (z : Z)
| JFloat (q : Q)
| JStr (s : string)
| JArr (items : list pyval)               (* list *)
| JObj (fields : list (string * pyval)).  (* dict with str keys *)

(** [os.getenv(name)] is a [str] or [None]. *)
Definition of_env (v : option string) : pyval :=
  match v with
  | Some s => JStr s
  | None => JNull
  end.

(** ** Exceptions

    The part of the class hierarchy that the handlers of [main.py] tell
    apart.  [ConnectionError] is [requests.exceptions.ConnectionError], a
    subclass of [requests.exceptions.RequestException], not the builtin. *)

Inductive exn_class : Type :=
| BaseException
| KeyboardInterrupt
| SystemExit
| Exception
| RequestException
| ConnectionError
| HTTPError
| Timeout
| KeyError
| IndexError
| TypeError
| ValueError
| EOFError.

Definition exn_class_eqb (c d : exn_class) : bool :=
  match c, d with
  | BaseException, BaseException
  | KeyboardInterrupt, KeyboardInterrupt
  | SystemExit, SystemExit
  | Exception, Exception
  | RequestException, RequestException
  | ConnectionError, ConnectionError
  | HTTPError, HTTPError
  | Timeout, Timeout
  | KeyError, KeyError
  | IndexError, IndexError
  | TypeError, TypeError
  | ValueError, ValueError
  | EOFError, EOFError => true
  | _, _ => false
  end.

(** The class itself followed by its modelled ancestors, as in [__mro__]. *)
Definition mro (c : exn_class) : list exn_class :=
  match c with
  | BaseException => [BaseException]
  | KeyboardInterrupt => [KeyboardInterrupt; BaseException]
  | SystemExit => [SystemExit; BaseException]
  | Exception => [Exception; BaseException]
  | RequestException => [RequestException; Exception; BaseException]
  | ConnectionError =>
      [ConnectionError; RequestException; Exception; BaseException]
  | HTTPError => [HTTPError; RequestException; Exception; BaseException]
  | Timeout => [Timeout; RequestException; Exception; BaseException]
  | KeyError => [KeyError; Exception; BaseException]
  | IndexError => [IndexError; Exception; BaseException]
  | TypeError => [TypeError; Exception; BaseException]
  | ValueError => [ValueError; Exception; BaseException]
  | EOFError => [EOFError; Exception; BaseException]
  end.

(** A raised exception: its class and the text [str(e)] gives. *)
Record exn : Type := Exn { exn_cls : exn_class; exn_str : string }.

Definition isinstance (e : exn) (c : exn_class) : bool :=
  existsb (exn_class_eqb c) (mro (exn_cls e)).

Inductive result (A : Type) : Type :=
| Ok (a : A)
| Raise (e : exn).
Arguments Ok {A} a.
Arguments Raise {A} e.

(** ** Subscripting, [v[k]] *)

Inductive index : Type :=
| Key (s : string)
| Idx (i : Z).

Definition type_name (v : pyval) : string :=
  match v with
  | JNull => "NoneType"
  | JBool _ => "bool"
  | JInt _ => "int"
  | JFloat _ => "float"
  | JStr _ => "str"
  | JArr _ => "list"
  | JObj _ => "dict"
  end.

Fixpoint dict_get (fields : list (string * pyval)) (k : string)
  : option pyval :=
  match fields with
  | [] => None
  | (k', v) :: rest => if String.eqb k' k then Some v else dict_get rest k
  end.

(** Position of index [i] in a sequence of length [len]; negative indices
    count from the end. *)
Definition seq_pos (len : nat) (i : Z) : option nat :=
  if (0 <=? i)%Z then
    if (i <? Z.of_nat len)%Z then Some (Z.to_nat i) else None
  else
    if (0 <=? Z.of_nat len + i)%Z then Some (Z.to_nat (Z.of_nat len + i))
    else None.

Definition repr_index (k : index) : string :=
  match k with
  | Key s => "'" ++ s ++ "'"
  | Idx i => NilZero.string_of_int (Z.to_int i)
  end.

Definition getitem (v : pyval) (k : index) : result pyval :=
  match v, k with
  | JObj fields, Key s =>
      match dict_get fields s with
      | Some x => Ok x
      | None => Raise (Exn KeyError (repr_index k))
      end
  | JObj _, Idx _ => Raise (Exn KeyError (repr_index k))
  | JArr items, Idx i =>
      match seq_pos (List.length items) i with
      | Some n =>
          match nth_error items n with
          | Some x => Ok x
          | None => Raise (Exn IndexError "list index out of range")
          end
      | None => Raise (Exn IndexError "list index out of range")
      end
  | JArr _, Key _ =>
      Raise (Exn TypeError "list indices must be integers or slices, not str")
  | JStr s, Idx i =>
      match seq_pos (String.length s) i with
      | Some n =>
          match String.get n s with
          | Some c => Ok (JStr (String c EmptyString))
          | None => Raise (Exn IndexError "string index out of range")
          end
      | None => Raise (Exn IndexError "string index out of range")
      end
  | JStr _, Key _ =>
      Raise (Exn TypeError "string indices must be integers, not 'str'")
  | _, _ =>
      Raise (Exn TypeError
               ("'" ++ type_name v ++ "' object is not subscriptable"))
  end.

(** ** Console and network events *)

Definition headers_t : Type := list (string * string).

Inductive event : Type :=
| Print (line : string)                   (* print(line) *)
| Input (prompt line : string)            (* input(prompt) returned line *)
| InputEOF (prompt : string)              (* input(prompt) met end of input *)
| InputRaised (prompt : string) (e : exn) (* input(prompt) raised e *)
| HttpPost (url : pyval) (json : pyval) (headers : headers_t).
                           (* requests.post(url, json=..., headers=...) *)

Definition trace : Type := list event.

(** ** The environment

    A [response] is what its two methods do when called.  The outcome of
    [requests.post] may depend on everything that happened before. *)

Record response : Type := Response {
  raise_for_status : result unit;
  response_json : result pyval
}.

Record world : Type := World {
  requests_post : trace -> pyval -> pyval -> headers_t -> result response;
  (* the text a replacement field of an f-string gives for a value that
     is not a str *)
  format_other : pyval -> string
}.

Definition format_value (w : world) (v : pyval) : string :=
  match v with
  | JStr s => s
  | _ => format_other w v
  end.

(** The text an f-string gives for a value read with [os.getenv]. *)
Definition format_env (v : option string) : string :=
  match v with
  | Some s => s
  | None => "None"
  end.

(** ** Computations: a trace of events and a result or an exception *)

Definition M (A : Type) : Type := trace -> result A * trace.

Definition ret {A} (a : A) : M A := fun tr => (Ok a, tr).

Definition raise {A} (e : exn) : M A := fun tr => (Raise e, tr).

Definition bind {A B} (m : M A) (k : A -> M B) : M B :=
  fun tr =>
    match m tr with
    | (Ok a, tr') => k a tr'
    | (Raise e, tr') => (Raise e, tr')
    end.

Definition lift {A} (r : result A) : M A := fun tr => (r, tr).

Definition emit (ev : event) : M unit := fun tr => (Ok tt, (tr ++ [ev])%list).

Notation "x <- m ;; k" := (bind m (fun x => k))
  (at level 61, m at next level, right associativity).
Notation "m ;;; k" := (bind m (fun _ => k))
  (at level 61, right associativity).

Definition print (line : string) : M unit := emit (Print line).

Definition post (w : world) (url json : pyval) (headers : headers_t)
  : M response :=
  fun tr => (requests_post w tr url json headers,
             (tr ++ [HttpPost url json headers])%list).

(** [try: body  except C1 as e: h1  except C2 as e: h2 ...]: the first
    clause whose class the exception is an instance of handles it; with
    none, it propagates. *)
Definition handler (A : Type) : Type := (exn_class * (exn -> M A))%type.

Fixpoint dispatch {A} (hs : list (handler A)) (e : exn) : M A :=
  match hs with
  | [] => raise e
  | (c, h) :: hs' => if isinstance e c then h e else dispatch hs' e
  end.

Definition try_except {A} (body : M A) (hs : list (handler A)) : M A :=
  fun tr =>
    match body tr with
    | (Ok a, tr') => (Ok a, tr')
    | (Raise e, tr') => dispatch hs e tr'
    end.

(** ** Strings *)

Definition nl : string := String (ascii_of_nat 10) EmptyString.

Definition lower_char (c : ascii) : ascii :=
  let n := nat_of_ascii c in
  if (65 <=? n)%nat && (n <=? 90)%nat then ascii_of_nat (n + 32) else c.

Fixpoint lower (s : string) : string :=
  match s with
  | EmptyString => EmptyString
  | String c s' => String (lower_char c) (lower s')
  end.

(** U+1F9E0 and U+1F3A8 in UTF-8. *)
Definition brain : string :=
  String (ascii_of_nat 240) (String (ascii_of_nat 159)
    (String (ascii_of_nat 167) (String (ascii_of_nat 160) EmptyString))).
Definition palette : string :=
  String (ascii_of_nat 240) (String (ascii_of_nat 159)
    (String (ascii_of_nat 142) (String (ascii_of_nat 168) EmptyString))).

(** ** Configuration: the module-level constants of [main.py] *)

Record config : Type := Config {
  VLLM_API_KEY : option string;
  VLLM_URL : option string;
  VLLM_MODEL_NAME : option string;
  PI_API_KEY : option string;
  PI_VERSION : string          (* os.getenv with a default: always a str *)
}.

Definition QWEN_SYSTEM_PROMPT : string :=
  "You are Qwen, the analytical reasoning engine powering Pi's responses. Pi excels at friendly conversation but relies on you for deep analysis, complex reasoning, technical knowledge, and factual accuracy. Your role: provide concise yet complete analytical answers that cover the essential facts, key concepts, and logical reasoning. Be precise and well-structured, but avoid unnecessary verbosity. Focus on the core information Pi needs to give an excellent answer. You handle the 'thinking' - Pi handles the 'talking'. Prioritize accuracy, relevance, and analytical depth over length.".

Definition PI_SYSTEM_PROMPT : string :=
  "You are Pi, an AI assistant known for your friendly, supportive, and conversational tone. A user asked a question, and another AI (Qwen) provided a detailed, factual response. Your task is to rewrite Qwen's response using your signature style and personality while keeping it as a direct answer to the original user question. It is CRITICAL that you retain ALL original facts, data, and key details from Qwen's text. DO NOT add new facts. Remember your backstory and personality at all times.".

Definition PI_URL_V1 : string :=
  "https://api.inflection.ai/external/api/inference/openai/v1/chat/completions".
Definition PI_URL_V2 : string :=
  "https://api.inflection.ai/v1/chat/completions".

Definition message (role : string) (content : pyval) : pyval :=
  JObj [("role", JStr role); ("content", content)].

Definition chat_payload (model messages : pyval) (max_tokens : Z)
    (temperature : Q) : pyval :=
  JObj [("model", model); ("messages", messages);
        ("max_tokens", JInt max_tokens); ("temperature", JFloat temperature)].

Definition bearer_headers (key : option string) : headers_t :=
  [("Authorization", "Bearer " ++ format_env key);
   ("Content-Type", "application/json")].

(** [response_data["choices"][0]["message"]["content"]] *)
Definition first_choice_content (response_data : pyval) : result pyval :=
  match getitem response_data (Key "choices") with
  | Raise e => Raise e
  | Ok choices =>
      match getitem choices (Idx 0) with
      | Raise e => Raise e
      | Ok choice =>
          match getitem choice (Key "message") with
          | Raise e => Raise e
          | Ok msg => getitem msg (Key "content")
          end
      end
  end.

(** The body of the [try] block, the same in both functions. *)
Definition post_and_extract (w : world) (url payload : pyval)
    (headers : headers_t) : M pyval :=
  response <- post w url payload headers ;;
  lift (raise_for_status response) ;;;
  response_data <- lift (response_json response) ;;
  lift (first_choice_content response_data).

(** The four [except] clauses, in the order of the source. *)
Definition api_handlers : list (handler pyval) :=
  [ (ConnectionError,
     fun e => print ("Connection error occurred: " ++ exn_str e) ;;;
              ret JNull);
    (RequestException,
     fun e => print ("Request error occurred: " ++ exn_str e) ;;;
              ret JNull);
    (KeyError,
     fun e => print ("Error parsing response: missing key " ++ exn_str e) ;;;
              ret JNull);
    (Exception,
     fun e => print ("Unexpected error occurred: " ++ exn_str e) ;;;
              ret JNull) ].

(** What [input] raises at end of input. *)
Definition EOF_ERROR : exn := Exn EOFError "EOF when reading a line".

Section Program.

Variable w : world.
Variable cfg : config.

(** *** [get_factual_answer_from_qwen] *)

Definition qwen_messages (user_query : string) : pyval :=
  JArr [message "system" (JStr QWEN_SYSTEM_PROMPT);
        message "user" (JStr user_query)].

Definition qwen_payload (user_query : string) : pyval :=
  chat_payload (of_env (VLLM_MODEL_NAME cfg)) (qwen_messages user_query)
               32768 0.0.

Definition qwen_headers : headers_t := bearer_headers (VLLM_API_KEY cfg).

Definition get_factual_answer_from_qwen (user_query : string) : M pyval :=
  let payload := qwen_payload user_query in
  let headers := qwen_headers in
  try_except
    (post_and_extract w (of_env (VLLM_URL cfg)) payload headers)
    api_handlers.

(** *** [restyle_text_with_pi] *)

Definition select_pi_url (pi_version : string) : result string :=
  if String.eqb pi_version "inflection_3_pi" then Ok PI_URL_V1
  else if String.eqb pi_version "Pi-3.1" then Ok PI_URL_V2
  else Raise (Exn ValueError ("Invalid Pi version: " ++ pi_version)).

Definition pi_user_content (text_to_restyle : pyval)
    (original_query : string) : string :=
  "Original user question: " ++ original_query ++ nl ++ nl
  ++ "Qwen's factual response to restyle:" ++ nl
  ++ format_value w text_to_restyle.

Definition pi_messages (text_to_restyle : pyval) (original_query : string)
  : pyval :=
  JArr [message "system" (JStr PI_SYSTEM_PROMPT);
        message "user"
          (JStr (pi_user_content text_to_restyle original_query))].

Definition pi_payload (text_to_restyle : pyval)
    (original_query pi_version : string) : pyval :=
  let model := JStr pi_version in
  chat_payload model (pi_messages text_to_restyle original_query) 1024 0.7.

Definition pi_headers : headers_t := bearer_headers (PI_API_KEY cfg).

Definition restyle_text_with_pi (text_to_restyle : pyval)
    (original_query pi_version : string) : M pyval :=
  pi_url <- lift (select_pi_url pi_version) ;;
  let payload := pi_payload text_to_restyle original_query pi_version in
  let headers := pi_headers in
  try_except
    (post_and_extract w (JStr pi_url) payload headers)
    api_handlers.

(** *** The session *)

Definition is_none (v : pyval) : bool :=
  match v with
  | JNull => true
  | _ => false
  end.

Definition PROMPT : string := nl ++ "You: ".
Definition THINKING_LINE : string :=
  nl ++ brain ++ " Thinking with Qwen's brain...".
Definition QWEN_LABEL : string := nl ++ "Qwen Response:".
Definition RESTYLE_LINE : string :=
  nl ++ palette ++ " Adding Pi's friendly voice...".
Definition PI_LABEL : string := nl ++ "Pi-Style Response:".

(** One pass through the loop body after the exit test. *)
Definition turn (user_input : string) : M unit :=
  print THINKING_LINE ;;;
  qwen_response <- get_factual_answer_from_qwen user_input ;;
  if negb (is_none qwen_response) then
    print QWEN_LABEL ;;;
    print (format_value w qwen_response) ;;;
    print RESTYLE_LINE ;;;
    pi_response <-
      restyle_text_with_pi qwen_response user_input (PI_VERSION cfg) ;;
    if negb (is_none pi_response) then
      print PI_LABEL ;;;
      print (format_value w pi_response)
    else ret tt
  else ret tt.

(** [while True:] over the lines the console still holds; [input] raises
    [EOFError] when there is none left. *)
Fixpoint session_loop (stdin : list string) : M unit :=
  match stdin with
  | [] =>
      emit (InputEOF PROMPT) ;;;
      raise EOF_ERROR
  | user_input :: rest =>
      emit (Input PROMPT user_input) ;;;
      if String.eqb (lower user_input) "exit" then ret tt
      else turn user_input ;;; session_loop rest
  end.

Definition version_ok (v : string) : bool :=
  negb (negb (String.eqb v "Pi-3.1")
        && negb (String.eqb v "inflection_3_pi")).

(** The [__main__] block. *)
Definition main (stdin : list string) : M unit :=
  if negb (String.eqb (PI_VERSION cfg) "Pi-3.1")
     && negb (String.eqb (PI_VERSION cfg) "inflection_3_pi")
  then raise (Exn ValueError
                ("Invalid Pi version: " ++ PI_VERSION cfg
                 ++ ", must be 'Pi-3.1' or 'inflection_3_pi'"))
  else
    print ("Qwen-Pi CLI Chat. Using " ++ PI_VERSION cfg
           ++ " as Pi. Type 'exit' to quit.") ;;;
    session_loop stdin.

End Program.

(** ** Observations on traces *)

(** The requests sent, oldest first. *)
Fixpoint posts (tr : trace) : list (pyval * pyval * headers_t) :=
  match tr with
  | [] => []
  | HttpPost u j h :: tr' => (u, j, h) :: posts tr'
  | _ :: tr' => posts tr'
  end.

(** The lines printed, oldest first. *)
Fixpoint printed (tr : trace) : list string :=
  match tr with
  | [] => []
  | Print s :: tr' => s :: printed tr'
  | _ :: tr' => printed tr'
  end.

(** [sub] occurs in [s] as a contiguous run of characters. *)
Definition contains (s sub : string) : Prop :=
  exists pre suf, s = pre ++ sub ++ suf.

Definition header_get (h : headers_t) (name : string) : option string :=
  match find (fun kv => String.eqb (fst kv) name) h with
  | Some kv => Some (snd kv)
  | None => None
  end.


(** What the [try] body evaluates to in history [tr]. *)
Definition body_outcome (w : world) (tr : trace) (url payload : pyval)
    (headers : headers_t) : result pyval :=
  match requests_post w tr url payload headers with
  | Raise e => Raise e
  | Ok response =>
      match raise_for_status response with
      | Raise e => Raise e
      | Ok _ =>
          match response_json response with
          | Raise e => Raise e
          | Ok response_data => first_choice_content response_data
          end
      end
  end.

(** The line the matching [except] clause prints, if one matches. *)
Definition diagnostic (e : exn) : option string :=
  if isinstance e ConnectionError then
    Some ("Connection error occurred: " ++ exn_str e)
  else if isinstance e RequestException then
    Some ("Request error occurred: " ++ exn_str e)
  else if isinstance e KeyError then
    Some ("Error parsing response: missing key " ++ exn_str e)
  else if isinstance e Exception then
    Some ("Unexpected error occurred: " ++ exn_str e)
  else None.

(** The fixed text that opens the line of the clause that handles [e]. *)
Definition diagnostic_prefix (e : exn) : string :=
  if isinstance e ConnectionError then "Connection error occurred: "
  else if isinstance e RequestException then "Request error occurred: "
  else if isinstance e KeyError then "Error parsing response: missing key "
  else "Unexpected error occurred: ".

(** The result in the words of the interface description: the [content]
    of the [message] of the first element of the array [choices]. *)
Definition first_choice_content_is (response_data content : pyval) : Prop :=
  exists fields mfields cfields more,
    response_data = JObj fields
    /\ dict_get fields "choices" = Some (JArr (JObj mfields :: more))
    /\ dict_get mfields "message" = Some (JObj cfields)
    /\ dict_get cfields "content" = Some content.

(** ** Sample environments, for running the program on concrete inputs *)

Definition sample_config : config :=
  Config (Some "sk-vllm") (Some "http://localhost:8000/v1/chat/completions")
         (Some "Qwen/Qwen3-32B") (Some "sk-pi") "Pi-3.1".

Definition bogus_config : config :=
  Config (Some "sk-vllm") (Some "http://localhost:8000/v1/chat/completions")
         (Some "Qwen/Qwen3-32B") (Some "sk-pi") "bogus".

(** No server is listening: every request is refused. *)
Definition offline_world : world :=
  World (fun _ _ _ _ => Raise (Exn ConnectionError "Connection refused"))
        (fun v => type_name v).

(** Ctrl-C arrives while a request is in flight. *)
Definition interrupted_world : world :=
  World (fun _ _ _ _ => Raise (Exn KeyboardInterrupt ""))
        (fun v => type_name v).

Definition paris_data : pyval :=
  JObj [("id", JStr "cmpl-1");
        ("choices",
         JArr [JObj [("index", JInt 0);
                     ("message",
                      JObj [("role", JStr "assistant");
                            ("content",
                             JStr "Paris is the capital of France.")])]])].

(** Every request is answered with the same well-formed completion. *)
Definition answering_world : world :=
  World (fun _ _ _ _ => Ok (Response (Ok tt) (Ok paris_data)))
        (fun v => type_name v).

(** The completion carries [null] where the text should be. *)
Definition null_content_world : world :=
  World (fun _ _ _ _ =>
           Ok (Response (Ok tt)
                 (Ok (JObj [("choices",
                             JArr [JObj [("message",
                                          JObj [("role", JStr "assistant");
                                                ("content", JNull)])]])]))))
        (fun v => type_name v).

(** The server answers 200 with an error object and no [choices]. *)
Definition error_body_world : world :=
  World (fun _ _ _ _ =>
           Ok (Response (Ok tt)
                 (Ok (JObj [("error", JStr "model overloaded")]))))
        (fun v => type_name v).

(** The server answers with an empty list of choices. *)
Definition empty_choices_world : world :=
  World (fun _ _ _ _ =>
           Ok (Response (Ok tt) (Ok (JObj [("choices", JArr [])]))))
        (fun v => type_name v).

(** The server answers 500; the body would have been well formed. *)
Definition http500_world : world :=
  World (fun _ _ _ _ =>
           Ok (Response (Raise (Exn HTTPError "500 Server Error"))
                 (Ok paris_data)))
        (fun v => type_name v).

(** The analytical server of [sample_config] answers; every other host
    refuses the connection. *)
Definition pi_down_world : world :=
  World (fun _ url _ _ =>
           match url with
           | JStr u =>
               if String.eqb u "http://localhost:8000/v1/chat/completions"
               then Ok (Response (Ok tt) (Ok paris_data))
               else Raise (Exn ConnectionError "Connection refused")
           | _ => Raise (Exn RequestException "Invalid URL")
           end)
        (fun v => type_name v).

Definition unset_config : config := Config None None None None "Pi-3.1".

(** ** Predicates for statements about whole sessions *)

Definition is_exit (line : string) : bool := String.eqb (lower line) "exit".

(** Every exception the HTTP layer raises is an instance of [Exception]
    (no interrupt arrives during a call). *)
Definition api_exceptions_only (w : world) : Prop :=
  forall tr url payload headers,
    match requests_post w tr url payload headers with
    | Raise e => isinstance e Exception = true
    | Ok resp =>
        match raise_for_status resp with
        | Raise e => isinstance e Exception = true
        | Ok _ => True
        end
        /\ match response_json resp with
           | Raise e => isinstance e Exception = true
           | Ok _ => True
           end
    end.

(** An analytical request of this configuration for one of [lines]. *)
Definition analytical_request (cfg : config) (lines : list string)
    (req : pyval * pyval * headers_t) : Prop :=
  exists l,
    In l lines /\ lower l <> "exit"
    /\ req = (of_env (VLLM_URL cfg), qwen_payload cfg l, qwen_headers cfg).

(** A persona request of this configuration restyling some answer to one
    of [lines]. *)
Definition persona_request (w : world) (cfg : config) (lines : list string)
    (req : pyval * pyval * headers_t) : Prop :=
  exists url l answer,
    select_pi_url (PI_VERSION cfg) = Ok url
    /\ In l lines /\ lower l <> "exit" /\ is_none answer = false
    /\ req = (JStr url, pi_payload w answer l (PI_VERSION cfg),
              pi_headers cfg).

(** The decoded body is a dict, and on the way to
    [["choices"][0]["message"]["content"]] the key [k] is the first one
    that is not there. *)
Definition missing_key (data : pyval) (k : string) : Prop :=
  exists fields,
    data = JObj fields
    /\ ((k = "choices" /\ dict_get fields "choices" = None)
        \/ exists mfields more,
             dict_get fields "choices" = Some (JArr (JObj mfields :: more))
             /\ ((k = "message" /\ dict_get mfields "message" = None)
                 \/ exists cfields,
                      dict_get mfields "message" = Some (JObj cfields)
                      /\ k = "content"
                      /\ dict_get cfields "content" = None)).

Definition is_dict (v : pyval) : bool :=
  match v with
  | JObj _ => true
  | _ => false
  end.

(** ** The console and the network as they can fail

    The definitions above carry a convention: a [print] succeeds, a
    request returns, and [input] gives a line or meets the end of input.
    The ones below lift it.  In the source [input] (line 152) and the
    prints of the loop (lines 148 to 173) stand outside both [try]
    blocks, the prints of the handlers stand inside [except] clauses,
    and [requests.post] is called without a timeout.  So here a [print]
    may raise, [input] may raise anything, and a request may never
    return.  The functions are the same text over this environment; with
    an environment in which nothing of the kind happens they are the
    functions above ([main_io_quiet]). *)

Inductive outcome (A : Type) : Type :=
| Done (a : A)
| Raised (e : exn)
| Blocked.                       (* a call that never returns *)
Arguments Done {A} a.
Arguments Raised {A} e.
Arguments Blocked {A}.

Record environment : Type := Environment {
  net : world;
  (* false: this call of requests.post never returns *)
  post_returns : trace -> pyval -> pyval -> headers_t -> bool;
  (* what print(line) raises in this history, if anything *)
  print_raises : trace -> string -> option exn
}.

Definition to_outcome {A} (r : result A) : outcome A :=
  match r with
  | Ok a => Done a
  | Raise e => Raised e
  end.

Definition embed {A} (x : result A * trace) : outcome A * trace :=
  (to_outcome (fst x), snd x).

Definition IO (A : Type) : Type := trace -> outcome A * trace.

Definition io_ret {A} (a : A) : IO A := fun tr => (Done a, tr).

Definition io_raise {A} (e : exn) : IO A := fun tr => (Raised e, tr).

Definition io_bind {A B} (m : IO A) (k : A -> IO B) : IO B :=
  fun tr =>
    match m tr with
    | (Done a, tr') => k a tr'
    | (Raised e, tr') => (Raised e, tr')
    | (Blocked, tr') => (Blocked, tr')
    end.

Definition io_lift {A} (r : result A) : IO A := fun tr => (to_outcome r, tr).

Notation "x <~ m ;; k" := (io_bind m (fun x => k))
  (at level 61, m at next level, right associativity).
Notation "m ~;; k" := (io_bind m (fun _ => k))
  (at level 61, right associativity).

Definition print_io (env : environment) (line : string) : IO unit :=
  fun tr =>
    match print_raises env tr line with
    | Some e => (Raised e, tr)
    | None => (Done tt, (tr ++ [Print line])%list)
    end.

Definition post_io (env : environment) (url json : pyval)
    (headers : headers_t) : IO response :=
  fun tr =>
    if post_returns env tr url json headers then
      (to_outcome (requests_post (net env) tr url json headers),
       (tr ++ [HttpPost url json headers])%list)
    else (Blocked, (tr ++ [HttpPost url json headers])%list).

Definition handler_io (A : Type) : Type := (exn_class * (exn -> IO A))%type.

Fixpoint dispatch_io {A} (hs : list (handler_io A)) (e : exn) : IO A :=
  match hs with
  | [] => io_raise e
  | (c, h) :: hs' => if isinstance e c then h e else dispatch_io hs' e
  end.

Definition try_except_io {A} (body : IO A) (hs : list (handler_io A))
  : IO A :=
  fun tr =>
    match body tr with
    | (Raised e, tr') => dispatch_io hs e tr'
    | other => other
    end.

Definition post_and_extract_io (env : environment) (url payload : pyval)
    (headers : headers_t) : IO pyval :=
  response <~ post_io env url payload headers ;;
  io_lift (raise_for_status response) ~;;
  response_data <~ io_lift (response_json response) ;;
  io_lift (first_choice_content response_data).

Definition api_handlers_io (env : environment) : list (handler_io pyval) :=
  [ (ConnectionError,
     fun e => print_io env ("Connection error occurred: " ++ exn_str e) ~;;
              io_ret JNull);
    (RequestException,
     fun e => print_io env ("Request error occurred: " ++ exn_str e) ~;;
              io_ret JNull);
    (KeyError,
     fun e => print_io env
                ("Error parsing response: missing key " ++ exn_str e) ~;;
              io_ret JNull);
    (Exception,
     fun e => print_io env ("Unexpected error occurred: " ++ exn_str e) ~;;
              io_ret JNull) ].

Definition get_factual_answer_from_qwen_io (env : environment)
    (cfg : config) (user_query : string) : IO pyval :=
  let payload := qwen_payload cfg user_query in
  let headers := qwen_headers cfg in
  try_except_io
    (post_and_extract_io env (of_env (VLLM_URL cfg)) payload headers)
    (api_handlers_io env).

Definition restyle_text_with_pi_io (env : environment) (cfg : config)
    (text_to_restyle : pyval) (original_query pi_version : string)
  : IO pyval :=
  pi_url <~ io_lift (select_pi_url pi_version) ;;
  let payload :=
    pi_payload (net env) text_to_restyle original_query pi_version in
  let headers := pi_headers cfg in
  try_except_io
    (post_and_extract_io env (JStr pi_url) payload headers)
    (api_handlers_io env).

Definition turn_io (env : environment) (cfg : config)
    (user_input : string) : IO unit :=
  print_io env THINKING_LINE ~;;
  qwen_response <~ get_factual_answer_from_qwen_io env cfg user_input ;;
  if negb (is_none qwen_response) then
    print_io env QWEN_LABEL ~;;
    print_io env (format_value (net env) qwen_response) ~;;
    print_io env RESTYLE_LINE ~;;
    pi_response <~
      restyle_text_with_pi_io env cfg qwen_response user_input
        (PI_VERSION cfg) ;;
    if negb (is_none pi_response) then
      print_io env PI_LABEL ~;;
      print_io env (format_value (net env) pi_response)
    else io_ret tt
  else io_ret tt.

(** The console delivers, call of [input] after call, a line or an
    exception; when the list is used up the input is at its end. *)
Fixpoint session_loop_io (env : environment) (cfg : config)
    (stdin : list (result string)) : IO unit :=
  match stdin with
  | [] => fun tr => (Raised EOF_ERROR, (tr ++ [InputEOF PROMPT])%list)
  | Raise e :: _ => fun tr => (Raised e, (tr ++ [InputRaised PROMPT e])%list)
  | Ok user_input :: rest =>
      (fun tr => (Done tt, (tr ++ [Input PROMPT user_input])%list)) ~;;
      if String.eqb (lower user_input) "exit" then io_ret tt
      else turn_io env cfg user_input ~;; session_loop_io env cfg rest
  end.

Definition main_io (env : environment) (cfg : config)
    (stdin : list (result string)) : IO unit :=
  if negb (String.eqb (PI_VERSION cfg) "Pi-3.1")
     && negb (String.eqb (PI_VERSION cfg) "inflection_3_pi")
  then io_raise (Exn ValueError
                   ("Invalid Pi version: " ++ PI_VERSION cfg
                    ++ ", must be 'Pi-3.1' or 'inflection_3_pi'"))
  else
    print_io env ("Qwen-Pi CLI Chat. Using " ++ PI_VERSION cfg
                  ++ " as Pi. Type 'exit' to quit.") ~;;
    session_loop_io env cfg stdin.

(** Some [print] of this environment raises [e]. *)
Definition raised_by_print (env : environment) (e : exn) : Prop :=
  exists tr line, print_raises env tr line = Some e.



(** Some request of this environment never returns. *)
Definition blocked_in_post (env : environment) : Prop :=
  exists tr url payload headers,
    post_returns env tr url payload headers = false.

(** An environment in which every print succeeds and every request
    returns. *)
Definition quiet (env : environment) : Prop :=
  (forall tr line, print_raises env tr line = None)
  /\ (forall tr url payload headers,
        post_returns env tr url payload headers = true).

(** Sample environments. *)
Definition healthy (w : world) : environment :=
  Environment w (fun _ _ _ _ => true) (fun _ _ => None).

(** The console cannot write the answer (as with an answer holding a
    lone surrogate): printing it raises. *)
Definition unprintable_answer_env : environment :=
  Environment answering_world (fun _ _ _ _ => true)
    (fun _ line =>
       if String.eqb line "Paris is the capital of France."
       then Some (Exn ValueError "'utf-8' codec can't encode character")
       else None).

(** The analytical service never answers. *)
Definition silent_service_env : environment :=
  Environment answering_world (fun _ _ _ _ => false) (fun _ _ => None).

(** ** Basic facts *)

Lemma posts_app (a b : trace) : posts (a ++ b)%list = (posts a ++ posts b)%list.
Proof.
  induction a as [|ev a IH]; simpl; [reflexivity|].
  destruct ev; simpl; rewrite IH; reflexivity.
Qed.

Lemma printed_app (a b : trace) :
  printed (a ++ b)%list = (printed a ++ printed b)%list.
Proof.
  induction a as [|ev a IH]; simpl; [reflexivity|].
  destruct ev; simpl; rewrite IH; reflexivity.
Qed.

Lemma post_and_extract_run w url payload headers tr :
  post_and_extract w url payload headers tr
  = (body_outcome w tr url payload headers,
     (tr ++ [HttpPost url payload headers])%list).
Proof.
  unfold post_and_extract, body_outcome, bind, post, lift.
  destruct (requests_post w tr url payload headers) as [resp|e];
    [|reflexivity].
  destruct (raise_for_status resp) as [u|e]; [|reflexivity].
  destruct (response_json resp) as [d|e]; reflexivity.
Qed.

Lemma dispatch_api_handlers e tr :
  dispatch api_handlers e tr
  = match diagnostic e with
    | Some d => (Ok JNull, (tr ++ [Print d])%list)
    | None => (Raise e, tr)
    end.
Proof.
  unfold diagnostic, api_handlers; simpl.
  destruct (isinstance e ConnectionError); [reflexivity|].
  destruct (isinstance e RequestException); [reflexivity|].
  destruct (isinstance e KeyError); [reflexivity|].
  destruct (isinstance e Exception); reflexivity.
Qed.

(** One guarded API call: exactly one request, then at most one
    diagnostic line. *)
Lemma api_call_run w url payload headers tr :
  try_except (post_and_extract w url payload headers) api_handlers tr
  = match body_outcome w tr url payload headers with
    | Ok v => (Ok v, (tr ++ [HttpPost url payload headers])%list)
    | Raise e =>
        match diagnostic e with
        | Some d =>
            (Ok JNull,
             (tr ++ [HttpPost url payload headers; Print d])%list)
        | None => (Raise e, (tr ++ [HttpPost url payload headers])%list)
        end
    end.
Proof.
  unfold try_except. rewrite post_and_extract_run.
  destruct (body_outcome w tr url payload headers) as [v|e]; [reflexivity|].
  rewrite dispatch_api_handlers.
  destruct (diagnostic e); [|reflexivity].
  rewrite <- app_assoc. reflexivity.
Qed.

Lemma diagnostic_none_iff e :
  diagnostic e = None <-> isinstance e Exception = false.
Proof.
  destruct e as [c s]; destruct c; cbv; split; intros H;
    first [reflexivity | discriminate H].
Qed.

Lemma diagnostic_of_exception e :
  isinstance e Exception = true -> exists d, diagnostic e = Some d.
Proof.
  intros H. destruct (diagnostic e) as [d|] eqn:E; [eauto|].
  apply diagnostic_none_iff in E. congruence.
Qed.

Lemma get_factual_run w cfg q tr :
  get_factual_answer_from_qwen w cfg q tr
  = match body_outcome w tr (of_env (VLLM_URL cfg)) (qwen_payload cfg q)
            (qwen_headers cfg) with
    | Ok v =>
        (Ok v,
         (tr ++ [HttpPost (of_env (VLLM_URL cfg)) (qwen_payload cfg q)
                   (qwen_headers cfg)])%list)
    | Raise e =>
        match diagnostic e with
        | Some d =>
            (Ok JNull,
             (tr ++ [HttpPost (of_env (VLLM_URL cfg)) (qwen_payload cfg q)
                       (qwen_headers cfg); Print d])%list)
        | None =>
            (Raise e,
             (tr ++ [HttpPost (of_env (VLLM_URL cfg)) (qwen_payload cfg q)
                       (qwen_headers cfg)])%list)
        end
    end.
Proof. unfold get_factual_answer_from_qwen. apply api_call_run. Qed.

Lemma restyle_run_ok w cfg t q v url tr :
  select_pi_url v = Ok url ->
  restyle_text_with_pi w cfg t q v tr
  = try_except
      (post_and_extract w (JStr url) (pi_payload w t q v) (pi_headers cfg))
      api_handlers tr.
Proof.
  intros H. unfold restyle_text_with_pi, bind, lift. rewrite H. reflexivity.
Qed.

Lemma restyle_run_invalid w cfg t q v e tr :
  select_pi_url v = Raise e ->
  restyle_text_with_pi w cfg t q v tr = (Raise e, tr).
Proof.
  intros H. unfold restyle_text_with_pi, bind, lift. rewrite H. reflexivity.
Qed.

Lemma version_ok_iff v :
  version_ok v = true <-> v = "inflection_3_pi" \/ v = "Pi-3.1".
Proof.
  unfold version_ok.
  destruct (String.eqb_spec v "Pi-3.1") as [E1|N1];
    destruct (String.eqb_spec v "inflection_3_pi") as [E2|N2];
    simpl; split; intros H; auto; try discriminate H.
  destruct H; contradiction.
Qed.

Lemma select_pi_url_ok v :
  version_ok v = true -> exists url, select_pi_url v = Ok url.
Proof.
  intros H. apply version_ok_iff in H. destruct H as [-> | ->].
  - exists PI_URL_V1. reflexivity.
  - exists PI_URL_V2. reflexivity.
Qed.

Lemma select_pi_url_invalid v :
  version_ok v = false ->
  select_pi_url v = Raise (Exn ValueError ("Invalid Pi version: " ++ v)).
Proof.
  unfold version_ok, select_pi_url. intros H.
  destruct (String.eqb v "inflection_3_pi"), (String.eqb v "Pi-3.1");
    simpl in H; try discriminate H; reflexivity.
Qed.

(** Nothing that a guarded API call lets through is an [Exception]. *)
Lemma api_call_escape w url payload headers tr e tr' :
  try_except (post_and_extract w url payload headers) api_handlers tr
  = (Raise e, tr') ->
  isinstance e Exception = false.
Proof.
  rewrite api_call_run.
  destruct (body_outcome w tr url payload headers) as [v|e0];
    [discriminate|].
  destruct (diagnostic e0) as [d|] eqn:E; [discriminate|].
  intros H. injection H as <- _. apply diagnostic_none_iff. exact E.
Qed.

(** A diagnostic line is never the label of the styled answer. *)
Lemma diagnostic_not_label e d :
  diagnostic e = Some d -> d <> PI_LABEL /\ d <> QWEN_LABEL.
Proof.
  unfold diagnostic. intros H.
  destruct (isinstance e ConnectionError);
    [|destruct (isinstance e RequestException);
      [|destruct (isinstance e KeyError);
        [|destruct (isinstance e Exception); [|discriminate H]]]];
    injection H as <-; split; intros C; cbv in C; discriminate C.
Qed.

(** *** The exit test *)







(** *** Turns and the loop *)

Lemma turn_absent w cfg l tr tr' :
  get_factual_answer_from_qwen w cfg l (tr ++ [Print THINKING_LINE])%list
  = (Ok JNull, tr') ->
  turn w cfg l tr = (Ok tt, tr').
Proof.
  intros H. unfold turn, bind, print, emit. rewrite H. reflexivity.
Qed.

Lemma turn_escape w cfg l tr e tr' :
  version_ok (PI_VERSION cfg) = true ->
  turn w cfg l tr = (Raise e, tr') ->
  isinstance e Exception = false.
Proof.
  intros V H. unfold turn, bind, print, emit in H.
  destruct (get_factual_answer_from_qwen w cfg l
              (tr ++ [Print THINKING_LINE])%list) as [[v|e1] tr1] eqn:G.
  - destruct (is_none v); simpl in H; [discriminate H|].
    destruct (select_pi_url_ok _ V) as [url U].
    erewrite restyle_run_ok in H by exact U.
    match type of H with
    | context [try_except ?b ?h ?t] =>
        destruct (try_except b h t) as [[pv|e2] tr2] eqn:R
    end.
    + destruct (is_none pv); simpl in H; discriminate H.
    + injection H as <- _. eapply api_call_escape. exact R.
  - injection H as <- _. unfold get_factual_answer_from_qwen in G.
    eapply api_call_escape. exact G.
Qed.

Lemma session_loop_exit w cfg l rest tr :
  String.eqb (lower l) "exit" = true ->
  session_loop w cfg (l :: rest) tr = (Ok tt, (tr ++ [Input PROMPT l])%list).
Proof.
  intros H. simpl. unfold bind, emit. rewrite H. reflexivity.
Qed.

Lemma session_loop_step w cfg l rest tr :
  String.eqb (lower l) "exit" = false ->
  session_loop w cfg (l :: rest) tr
  = (turn w cfg l ;;; session_loop w cfg rest) (tr ++ [Input PROMPT l])%list.
Proof.
  intros H. simpl. unfold bind at 1. unfold emit. rewrite H. reflexivity.
Qed.

Lemma session_loop_outcome w cfg :
  version_ok (PI_VERSION cfg) = true ->
  forall stdin tr r tr',
    session_loop w cfg stdin tr = (r, tr') ->
    match r with
    | Ok _ =>
        exists pre l suf,
          stdin = (pre ++ l :: suf)%list /\ lower l = "exit"
          /\ Forall (fun x => lower x <> "exit") pre
          /\ exists tr0, tr' = (tr0 ++ [Input PROMPT l])%list
    | Raise e =>
        (e = EOF_ERROR /\ Forall (fun x => lower x <> "exit") stdin)
        \/ isinstance e Exception = false
    end.
Proof.
  intros V stdin. induction stdin as [|l rest IH]; intros tr r tr' H.
  - simpl in H. unfold bind, emit, raise in H. injection H as <- <-.
    left. split; [reflexivity | constructor].
  - destruct (String.eqb (lower l) "exit") eqn:E.
    + rewrite (session_loop_exit w cfg l rest tr E) in H.
      injection H as <- <-.
      exists [], l, rest. apply String.eqb_eq in E.
      repeat split; [exact E | constructor | eexists; reflexivity].
    + rewrite (session_loop_step w cfg l rest tr E) in H.
      apply String.eqb_neq in E.
      unfold bind in H.
      destruct (turn w cfg l (tr ++ [Input PROMPT l])%list)
        as [[u|e] tr1] eqn:T.
      * specialize (IH _ _ _ H). destruct r as [u'|e].
        -- destruct IH as (pre & l' & suf & -> & L & F & tr0 & ->).
           exists (l :: pre), l', suf.
           repeat split; [exact L | constructor; assumption
                         | eexists; reflexivity].
        -- destruct IH as [[-> F] | N]; [left | right; exact N].
           split; [reflexivity | constructor; assumption].
      * injection H as <- <-. right. eapply turn_escape; eassumption.
Qed.

Lemma not_exception_not_value_error e :
  isinstance e Exception = false -> isinstance e ValueError = false.
Proof.
  destruct e as [c s]; destruct c; cbv; intros H;
    first [reflexivity | discriminate H].
Qed.

(** *** Requests sent by one call *)

Lemma api_call_posts w url payload headers tr :
  posts (snd (try_except (post_and_extract w url payload headers)
                api_handlers tr))
  = (posts tr ++ [(url, payload, headers)])%list.
Proof.
  rewrite api_call_run.
  destruct (body_outcome w tr url payload headers) as [v|e];
    [|destruct (diagnostic e)]; simpl; rewrite posts_app; reflexivity.
Qed.

Lemma get_factual_posts w cfg q tr :
  posts (snd (get_factual_answer_from_qwen w cfg q tr))
  = (posts tr
     ++ [(of_env (VLLM_URL cfg), qwen_payload cfg q, qwen_headers cfg)])%list.
Proof. unfold get_factual_answer_from_qwen. apply api_call_posts. Qed.

Lemma restyle_posts w cfg t q v url tr :
  select_pi_url v = Ok url ->
  posts (snd (restyle_text_with_pi w cfg t q v tr))
  = (posts tr ++ [(JStr url, pi_payload w t q v, pi_headers cfg)])%list.
Proof.
  intros U. erewrite restyle_run_ok by exact U. apply api_call_posts.
Qed.

(** A call of [restyle_text_with_pi] always leaves a mark: a request in
    the trace, or the configuration error as its result. *)
Lemma restyle_observable w cfg t q v tr :
  (exists req,
     posts (snd (restyle_text_with_pi w cfg t q v tr))
     = (posts tr ++ [req])%list)
  \/ (exists e,
        restyle_text_with_pi w cfg t q v tr = (Raise e, tr)
        /\ exn_cls e = ValueError).
Proof.
  destruct (version_ok v) eqn:V.
  - destruct (select_pi_url_ok _ V) as [url U]. left.
    eexists. apply restyle_posts. exact U.
  - right. eexists. split.
    + apply restyle_run_invalid. apply select_pi_url_invalid. exact V.
    + reflexivity.
Qed.

Lemma first_choice_content_spec d c :
  first_choice_content d = Ok c <-> first_choice_content_is d c.
Proof.
  split.
  - unfold first_choice_content. intros H.
    destruct d as [| | | | |items|fields]; simpl in H; try discriminate H.
    destruct (dict_get fields "choices") as [ch|] eqn:E1; [|discriminate H].
    destruct ch as [| | | |s|items|f]; try discriminate H.
    { exfalso. unfold getitem at 1 in H.
      destruct (seq_pos _ _) as [n|]; [|discriminate H].
      destruct (String.get n s); simpl in H; discriminate H. }
    destruct items as [|first more]; [discriminate H|].
    change (getitem (JArr (first :: more)) (Idx 0)) with (Ok first) in H.
    destruct first as [| | | |s|items|mfields]; simpl in H;
      try discriminate H.
    destruct (dict_get mfields "message") as [m|] eqn:E2; [|discriminate H].
    destruct m as [| | | |s|items|cfields]; simpl in H; try discriminate H.
    destruct (dict_get cfields "content") as [x|] eqn:E3; [|discriminate H].
    injection H as ->.
    exists fields, mfields, cfields, more. auto.
  - intros (fields & mfields & cfields & more & -> & E1 & E2 & E3).
    unfold first_choice_content. simpl. rewrite E1.
    change (getitem (JArr (JObj mfields :: more)) (Idx 0))
      with (Ok (JObj mfields)).
    simpl. rewrite E2. simpl. rewrite E3. reflexivity.
Qed.

(** * The claims *)

(** C1.  In a turn whose input line is not the exit command, if
    [get_factual_answer_from_qwen] returns [None], the turn ends there:
    its trace is exactly the one the call left, so the only request sent
    in the turn is the analytical one ([restyle_text_with_pi] is not
    called, see [restyle_observable]), the label of the styled answer is
    not printed, and the loop goes on to read the next line. *)
Theorem C1_absent_fact_skips_restyle w cfg l rest tr tr' :
  String.eqb (lower l) "exit" = false ->
  get_factual_answer_from_qwen w cfg l
    (tr ++ [Input PROMPT l; Print THINKING_LINE])%list = (Ok JNull, tr') ->
  turn w cfg l (tr ++ [Input PROMPT l])%list = (Ok tt, tr')
  /\ posts tr'
     = (posts tr
        ++ [(of_env (VLLM_URL cfg), qwen_payload cfg l, qwen_headers cfg)])%list
  /\ (exists diag,
        printed tr' = (printed tr ++ THINKING_LINE :: diag)%list
        /\ ~ In PI_LABEL (THINKING_LINE :: diag))
  /\ session_loop w cfg (l :: rest) tr = session_loop w cfg rest tr'.
Proof.
  intros E G.
  assert (T : turn w cfg l (tr ++ [Input PROMPT l])%list = (Ok tt, tr')).
  { apply turn_absent. rewrite <- app_assoc. exact G. }
  split; [exact T|]. split; [|split].
  - pose proof (get_factual_posts w cfg l
                  (tr ++ [Input PROMPT l; Print THINKING_LINE])%list) as P.
    rewrite G in P. simpl in P. rewrite P, posts_app. simpl.
    rewrite app_nil_r. reflexivity.
  - rewrite get_factual_run in G.
    destruct (body_outcome _ _ _ _ _) as [v|e].
    + injection G as _ <-. exists [].
      rewrite !printed_app. simpl. rewrite app_nil_r. split; [reflexivity|].
      intros [C|[]]. cbv in C. discriminate C.
    + destruct (diagnostic e) as [d|] eqn:D; [|discriminate G].
      injection G as <-. exists [d].
      rewrite !printed_app. simpl. rewrite <- app_assoc.
      split; [reflexivity|].
      pose proof D as N. apply diagnostic_not_label in N. destruct N as [N _].
      intros [C|[C|[]]]; [cbv in C; discriminate C | congruence].
  - rewrite (session_loop_step w cfg l rest tr E). unfold bind.
    rewrite T. reflexivity.
Qed.

Lemma C1_witness :
  String.eqb (lower "hello") "exit" = false
  /\ turn offline_world sample_config "hello" [Input PROMPT "hello"]
     = (Ok tt,
        [Input PROMPT "hello"; Print THINKING_LINE;
         HttpPost (of_env (VLLM_URL sample_config))
           (qwen_payload sample_config "hello") (qwen_headers sample_config);
         Print "Connection error occurred: Connection refused"]).
Proof.
  split; [reflexivity|].
  apply (@C1_absent_fact_skips_restyle offline_world sample_config
           "hello" [] [] _); reflexivity.
Defined.

(** C2.  For each of the two recognised persona versions,
    [restyle_text_with_pi] sends exactly one request, to the fixed URL
    of that version, and the [model] entry of its payload is the version
    string itself. *)
Theorem C2_endpoint_and_model w cfg t q tr :
  (exists payload headers,
     posts (snd (restyle_text_with_pi w cfg t q "inflection_3_pi" tr))
     = (posts tr
        ++ [(JStr "https://api.inflection.ai/external/api/inference/openai/v1/chat/completions",
             payload, headers)])%list
     /\ getitem payload (Key "model") = Ok (JStr "inflection_3_pi"))
  /\ (exists payload headers,
        posts (snd (restyle_text_with_pi w cfg t q "Pi-3.1" tr))
        = (posts tr
           ++ [(JStr "https://api.inflection.ai/v1/chat/completions",
                payload, headers)])%list
        /\ getitem payload (Key "model") = Ok (JStr "Pi-3.1")).
Proof.
  split.
  - exists (pi_payload w t q "inflection_3_pi"), (pi_headers cfg). split.
    + apply restyle_posts. reflexivity.
    + reflexivity.
  - exists (pi_payload w t q "Pi-3.1"), (pi_headers cfg). split.
    + apply restyle_posts. reflexivity.
    + reflexivity.
Qed.

(** C3.  For a persona version other than the two recognised ones,
    [restyle_text_with_pi] raises [ValueError] with the trace unchanged
    (nothing sent, nothing printed), and the exception is the result of
    the call, not [None]. *)
Theorem C3_invalid_version_raises w cfg t q v tr :
  v <> "inflection_3_pi" -> v <> "Pi-3.1" ->
  restyle_text_with_pi w cfg t q v tr
  = (Raise (Exn ValueError ("Invalid Pi version: " ++ v)), tr).
Proof.
  intros N1 N2. apply restyle_run_invalid. apply select_pi_url_invalid.
  destruct (version_ok v) eqn:V; [|reflexivity].
  apply version_ok_iff in V. destruct V; contradiction.
Qed.

Lemma C3_witness :
  restyle_text_with_pi answering_world sample_config
    (JStr "Paris is the capital of France.")
    "What is the capital of France?" "bogus" []
  = (Raise (Exn ValueError "Invalid Pi version: bogus"), []).
Proof.
  apply (@C3_invalid_version_raises answering_world sample_config
           (JStr "Paris is the capital of France.")
           "What is the capital of France?" "bogus" []);
    intros H; discriminate H.
Defined.

Lemma diagnostic_prefix_spec e :
  isinstance e Exception = true ->
  diagnostic e = Some (diagnostic_prefix e ++ exn_str e).
Proof.
  unfold diagnostic, diagnostic_prefix. intros H.
  destruct (isinstance e ConnectionError); [reflexivity|].
  destruct (isinstance e RequestException); [reflexivity|].
  destruct (isinstance e KeyError); [reflexivity|].
  rewrite H. reflexivity.
Qed.

Lemma append_nil_r (s : string) : s ++ "" = s.
Proof. induction s as [|c s IH]; simpl; [|rewrite IH]; reflexivity. Qed.

Lemma append_assoc (a b c : string) : (a ++ b) ++ c = a ++ (b ++ c).
Proof. induction a as [|x a IH]; simpl; [|rewrite IH]; reflexivity. Qed.

(** C4, as the code has it.  An exception raised inside the [try] block
    of either function (by [requests.post], [raise_for_status], [json] or
    the subscripts) that is an instance of [Exception] is handled: the
    function prints one line, whose opening text tells the four clauses
    apart, and returns [None].  An exception that is not an instance of
    [Exception], as [KeyboardInterrupt] and [SystemExit] are not, is
    named by no clause: it leaves either function as it was raised, after
    the request and with nothing printed. *)
Theorem C4_exceptions_reported w cfg e :
  (isinstance e Exception = true ->
   (forall q tr,
      body_outcome w tr (of_env (VLLM_URL cfg)) (qwen_payload cfg q)
        (qwen_headers cfg) = Raise e ->
      get_factual_answer_from_qwen w cfg q tr
      = (Ok JNull,
         (tr ++ [HttpPost (of_env (VLLM_URL cfg)) (qwen_payload cfg q)
                   (qwen_headers cfg);
                 Print (diagnostic_prefix e ++ exn_str e)])%list))
   /\ (forall t q v url tr,
         select_pi_url v = Ok url ->
         body_outcome w tr (JStr url) (pi_payload w t q v) (pi_headers cfg)
         = Raise e ->
         restyle_text_with_pi w cfg t q v tr
         = (Ok JNull,
            (tr ++ [HttpPost (JStr url) (pi_payload w t q v)
                      (pi_headers cfg);
                    Print (diagnostic_prefix e ++ exn_str e)])%list)))
  /\ (isinstance e Exception = false ->
      (forall q tr,
         body_outcome w tr (of_env (VLLM_URL cfg)) (qwen_payload cfg q)
           (qwen_headers cfg) = Raise e ->
         get_factual_answer_from_qwen w cfg q tr
         = (Raise e,
            (tr ++ [HttpPost (of_env (VLLM_URL cfg)) (qwen_payload cfg q)
                      (qwen_headers cfg)])%list))
      /\ (forall t q v url tr,
            select_pi_url v = Ok url ->
            body_outcome w tr (JStr url) (pi_payload w t q v)
              (pi_headers cfg) = Raise e ->
            restyle_text_with_pi w cfg t q v tr
            = (Raise e,
               (tr ++ [HttpPost (JStr url) (pi_payload w t q v)
                         (pi_headers cfg)])%list)))
  /\ (forall s,
        isinstance (Exn KeyboardInterrupt s) Exception = false
        /\ isinstance (Exn SystemExit s) Exception = false
        /\ isinstance (Exn BaseException s) Exception = false)
  /\ (forall s,
        diagnostic_prefix (Exn ConnectionError s)
        = "Connection error occurred: "
        /\ diagnostic_prefix (Exn Timeout s) = "Request error occurred: "
        /\ diagnostic_prefix (Exn HTTPError s) = "Request error occurred: "
        /\ diagnostic_prefix (Exn RequestException s)
           = "Request error occurred: "
        /\ diagnostic_prefix (Exn KeyError s)
           = "Error parsing response: missing key "
        /\ diagnostic_prefix (Exn IndexError s)
           = "Unexpected error occurred: "
        /\ diagnostic_prefix (Exn TypeError s)
           = "Unexpected error occurred: "
        /\ diagnostic_prefix (Exn ValueError s)
           = "Unexpected error occurred: ").
Proof.
  split; [|split; [|split]].
  - intros H. pose proof (diagnostic_prefix_spec e H) as D. split.
    + intros q tr B. rewrite get_factual_run, B, D. reflexivity.
    + intros t q v url tr U B. erewrite restyle_run_ok by exact U.
      rewrite api_call_run, B, D. reflexivity.
  - intros H. apply diagnostic_none_iff in H. split.
    + intros q tr B. rewrite get_factual_run, B, H. reflexivity.
    + intros t q v url tr U B. erewrite restyle_run_ok by exact U.
      rewrite api_call_run, B, H. reflexivity.
  - intros s. repeat split.
  - intros s. repeat split.
Qed.

Lemma C4_witness :
  isinstance (Exn ConnectionError "Connection refused") Exception = true
  /\ get_factual_answer_from_qwen offline_world sample_config "hi" []
     = (Ok JNull,
        [HttpPost (of_env (VLLM_URL sample_config))
           (qwen_payload sample_config "hi") (qwen_headers sample_config);
         Print "Connection error occurred: Connection refused"])
  /\ isinstance (Exn SystemExit "") Exception = false
  /\ restyle_text_with_pi
       (World (fun _ _ _ _ => Raise (Exn SystemExit "")) type_name)
       sample_config (JStr "Paris is the capital of France.")
       "What is the capital of France?" "Pi-3.1" []
     = (Raise (Exn SystemExit ""),
        [HttpPost (JStr PI_URL_V2)
           (pi_payload
              (World (fun _ _ _ _ => Raise (Exn SystemExit "")) type_name)
              (JStr "Paris is the capital of France.")
              "What is the capital of France?" "Pi-3.1")
           (pi_headers sample_config)]).
Proof.
  split; [reflexivity|]. split; [|split; [reflexivity|]].
  - destruct (@C4_exceptions_reported offline_world sample_config
                (Exn ConnectionError "Connection refused")) as [H _].
    destruct (H eq_refl) as [G _]. apply (G "hi" []). reflexivity.
  - destruct (@C4_exceptions_reported
                (World (fun _ _ _ _ => Raise (Exn SystemExit ""))
                   type_name)
                sample_config (Exn SystemExit "")) as (_ & H & _).
    destruct (H eq_refl) as [_ R].
    apply (R (JStr "Paris is the capital of France.")
             "What is the capital of France?" "Pi-3.1" PI_URL_V2 []);
      reflexivity.
Defined.

(** C4 as stated fails: an interrupt raised while the request is in
    flight is an exception arising during the HTTP call, and it leaves
    [get_factual_answer_from_qwen] unhandled, with nothing printed. *)
Lemma C4_counterexample :
  body_outcome interrupted_world [] (of_env (VLLM_URL sample_config))
    (qwen_payload sample_config "hi") (qwen_headers sample_config)
  = Raise (Exn KeyboardInterrupt "")
  /\ fst (get_factual_answer_from_qwen interrupted_world sample_config
            "hi" [])
     = Raise (Exn KeyboardInterrupt "")
  /\ printed (snd (get_factual_answer_from_qwen interrupted_world
                     sample_config "hi" [])) = [].
Proof. repeat split. Qed.

(** C5.  The payload of the one request each function sends carries a
    [messages] list of exactly two entries, a system message followed by
    a user message.  For [get_factual_answer_from_qwen] the user content
    is the query; for [restyle_text_with_pi] it contains the original
    query and the factual text as they were passed. *)
Theorem C5_two_messages w cfg q t oq v tr :
  version_ok v = true ->
  (exists url payload headers,
     posts (snd (get_factual_answer_from_qwen w cfg q tr))
     = (posts tr ++ [(url, payload, headers)])%list
     /\ getitem payload (Key "messages")
        = Ok (JArr [JObj [("role", JStr "system");
                          ("content", JStr QWEN_SYSTEM_PROMPT)];
                    JObj [("role", JStr "user"); ("content", JStr q)]]))
  /\ (exists url payload headers content,
        posts (snd (restyle_text_with_pi w cfg (JStr t) oq v tr))
        = (posts tr ++ [(url, payload, headers)])%list
        /\ getitem payload (Key "messages")
           = Ok (JArr [JObj [("role", JStr "system");
                             ("content", JStr PI_SYSTEM_PROMPT)];
                       JObj [("role", JStr "user");
                             ("content", JStr content)]])
        /\ contains content oq
        /\ contains content t).
Proof.
  intros V. split.
  - exists (of_env (VLLM_URL cfg)), (qwen_payload cfg q), (qwen_headers cfg).
    split; [apply get_factual_posts | reflexivity].
  - destruct (select_pi_url_ok _ V) as [url U].
    exists (JStr url), (pi_payload w (JStr t) oq v), (pi_headers cfg),
      (pi_user_content w (JStr t) oq).
    split; [apply restyle_posts; exact U|].
    split; [reflexivity|]. split.
    + exists "Original user question: ",
        (nl ++ nl ++ "Qwen's factual response to restyle:" ++ nl ++ t).
      reflexivity.
    + exists ("Original user question: " ++ oq ++ nl ++ nl
              ++ "Qwen's factual response to restyle:" ++ nl), "".
      unfold pi_user_content, format_value.
      rewrite append_nil_r, !append_assoc. reflexivity.
Qed.

Lemma C5_witness :
  version_ok "Pi-3.1" = true
  /\ exists url payload headers content,
       posts (snd (restyle_text_with_pi answering_world sample_config
                     (JStr "Paris is the capital of France.")
                     "What is the capital of France?" "Pi-3.1" []))
       = [(url, payload, headers)]
       /\ getitem payload (Key "messages")
          = Ok (JArr [JObj [("role", JStr "system");
                            ("content", JStr PI_SYSTEM_PROMPT)];
                      JObj [("role", JStr "user");
                            ("content", JStr content)]])
       /\ contains content "What is the capital of France?"
       /\ contains content "Paris is the capital of France.".
Proof.
  split; [reflexivity|].
  destruct (@C5_two_messages answering_world sample_config "unused"
              "Paris is the capital of France."
              "What is the capital of France?" "Pi-3.1" [] eq_refl)
    as [_ H].
  exact H.
Defined.

(** C6.  The analytical request has [max_tokens] 32768, [temperature]
    0.0 and the header [Authorization: Bearer] followed by the analytical
    key; the persona request has [max_tokens] 1024, [temperature] 0.7 and
    the same header with the persona key.  When the request succeeds and
    the decoded body has the expected shape, each function returns the
    [content] of the [message] of the first element of [choices], and
    prints nothing. *)
Theorem C6_fixed_parameters_and_result w cfg q t oq v url tr :
  select_pi_url v = Ok url ->
  (getitem (qwen_payload cfg q) (Key "max_tokens") = Ok (JInt 32768)
   /\ getitem (qwen_payload cfg q) (Key "temperature") = Ok (JFloat 0.0)
   /\ header_get (qwen_headers cfg) "Authorization"
      = Some ("Bearer " ++ format_env (VLLM_API_KEY cfg))
   /\ posts (snd (get_factual_answer_from_qwen w cfg q tr))
      = (posts tr
         ++ [(of_env (VLLM_URL cfg), qwen_payload cfg q,
              qwen_headers cfg)])%list)
  /\ (getitem (pi_payload w t oq v) (Key "max_tokens") = Ok (JInt 1024)
      /\ getitem (pi_payload w t oq v) (Key "temperature")
         = Ok (JFloat 0.7)
      /\ header_get (pi_headers cfg) "Authorization"
         = Some ("Bearer " ++ format_env (PI_API_KEY cfg))
      /\ posts (snd (restyle_text_with_pi w cfg t oq v tr))
         = (posts tr
            ++ [(JStr url, pi_payload w t oq v, pi_headers cfg)])%list)
  /\ (forall k, format_env (Some k) = k)
  /\ (forall resp u data content,
        requests_post w tr (of_env (VLLM_URL cfg)) (qwen_payload cfg q)
          (qwen_headers cfg) = Ok resp ->
        raise_for_status resp = Ok u ->
        response_json resp = Ok data ->
        first_choice_content_is data content ->
        get_factual_answer_from_qwen w cfg q tr
        = (Ok content,
           (tr ++ [HttpPost (of_env (VLLM_URL cfg)) (qwen_payload cfg q)
                     (qwen_headers cfg)])%list))
  /\ (forall resp u data content,
        requests_post w tr (JStr url) (pi_payload w t oq v)
          (pi_headers cfg) = Ok resp ->
        raise_for_status resp = Ok u ->
        response_json resp = Ok data ->
        first_choice_content_is data content ->
        restyle_text_with_pi w cfg t oq v tr
        = (Ok content,
           (tr ++ [HttpPost (JStr url) (pi_payload w t oq v)
                     (pi_headers cfg)])%list)).
Proof.
  intros U. split; [|split; [|split; [|split]]].
  - repeat split. apply get_factual_posts.
  - repeat split. apply restyle_posts. exact U.
  - reflexivity.
  - intros resp u data content P S J F.
    apply first_choice_content_spec in F.
    rewrite get_factual_run. unfold body_outcome. rewrite P, S, J, F.
    reflexivity.
  - intros resp u data content P S J F.
    apply first_choice_content_spec in F.
    erewrite restyle_run_ok by exact U.
    rewrite api_call_run. unfold body_outcome. rewrite P, S, J, F.
    reflexivity.
Qed.

Lemma C6_witness :
  select_pi_url "Pi-3.1" = Ok PI_URL_V2
  /\ get_factual_answer_from_qwen answering_world sample_config
       "What is the capital of France?" []
     = (Ok (JStr "Paris is the capital of France."),
        [HttpPost (of_env (VLLM_URL sample_config))
           (qwen_payload sample_config "What is the capital of France?")
           (qwen_headers sample_config)]).
Proof.
  split; [reflexivity|].
  destruct (@C6_fixed_parameters_and_result answering_world sample_config
              "What is the capital of France?" JNull "" "Pi-3.1" PI_URL_V2
              [] eq_refl)
    as (_ & _ & _ & H & _).
  apply (H (Response (Ok tt) (Ok paris_data)) tt paris_data);
    try reflexivity.
  exists [("id", JStr "cmpl-1");
          ("choices",
           JArr [JObj [("index", JInt 0);
                       ("message",
                        JObj [("role", JStr "assistant");
                              ("content",
                               JStr "Paris is the capital of France.")])]])],
    [("index", JInt 0);
     ("message",
      JObj [("role", JStr "assistant");
            ("content", JStr "Paris is the capital of France.")])],
    [("role", JStr "assistant");
     ("content", JStr "Paris is the capital of France.")],
    [].
  repeat split.
Defined.

(** C8.  The request a call builds does not depend on the environment or
    on what happened before: for a given configuration and query there
    is one request (URL, payload, headers) that every call of
    [get_factual_answer_from_qwen] sends, and likewise for
    [restyle_text_with_pi] and a given factual text, query and version
    (one request for a recognised version, none otherwise). *)
Theorem C8_request_construction_deterministic cfg q t oq v :
  (exists req,
     forall w tr,
       posts (snd (get_factual_answer_from_qwen w cfg q tr))
       = (posts tr ++ [req])%list)
  /\ (exists reqs,
        List.length reqs = (if version_ok v then 1 else 0)%nat
        /\ forall w tr,
             posts (snd (restyle_text_with_pi w cfg (JStr t) oq v tr))
             = (posts tr ++ reqs)%list).
Proof.
  split.
  - eexists. intros w tr. apply get_factual_posts.
  - destruct (version_ok v) eqn:V.
    + destruct (select_pi_url_ok _ V) as [url U].
      exists [(JStr url,
               chat_payload (JStr v)
                 (JArr [message "system" (JStr PI_SYSTEM_PROMPT);
                        message "user"
                          (JStr ("Original user question: " ++ oq ++ nl
                                 ++ nl
                                 ++ "Qwen's factual response to restyle:"
                                 ++ nl ++ t))])
                 1024 0.7,
               pi_headers cfg)].
      split; [reflexivity|]. intros w tr.
      erewrite restyle_posts by exact U. reflexivity.
    + exists []. split; [reflexivity|]. intros w tr.
      erewrite restyle_run_invalid
        by (apply select_pi_url_invalid; exact V).
      simpl. rewrite app_nil_r. reflexivity.
Qed.

(** *** The trace only grows *)

Lemma api_call_extends w url payload headers tr :
  exists out,
    snd (try_except (post_and_extract w url payload headers)
           api_handlers tr)
    = (tr ++ HttpPost url payload headers :: out)%list.
Proof.
  rewrite api_call_run.
  destruct (body_outcome w tr url payload headers) as [v|e];
    [|destruct (diagnostic e)]; simpl; eexists; reflexivity.
Qed.

Lemma restyle_extends w cfg t q v tr :
  exists out,
    snd (restyle_text_with_pi w cfg t q v tr) = (tr ++ out)%list.
Proof.
  destruct (select_pi_url v) as [url|e] eqn:U.
  - erewrite restyle_run_ok by exact U.
    destruct (api_call_extends w (JStr url) (pi_payload w t q v)
                (pi_headers cfg) tr) as [out H].
    rewrite H. eexists. reflexivity.
  - erewrite restyle_run_invalid by exact U.
    exists []. simpl. rewrite app_nil_r. reflexivity.
Qed.

Lemma turn_starts_with_request w cfg l tr :
  exists out,
    snd (turn w cfg l tr)
    = (tr ++ [Print THINKING_LINE;
              HttpPost (of_env (VLLM_URL cfg)) (qwen_payload cfg l)
                (qwen_headers cfg)] ++ out)%list.
Proof.
  unfold turn, bind, print, emit.
  destruct (api_call_extends w (of_env (VLLM_URL cfg)) (qwen_payload cfg l)
              (qwen_headers cfg) (tr ++ [Print THINKING_LINE])%list)
    as [out1 H1].
  fold (get_factual_answer_from_qwen w cfg l
          (tr ++ [Print THINKING_LINE])%list) in H1.
  destruct (get_factual_answer_from_qwen w cfg l
              (tr ++ [Print THINKING_LINE])%list) as [[v|e] tr1];
    simpl in H1; subst tr1.
  - destruct (is_none v); simpl.
    + exists out1. rewrite <- app_assoc. reflexivity.
    + match goal with
      | |- context [restyle_text_with_pi w cfg v l ?pv ?t0] =>
          destruct (restyle_extends w cfg v l pv t0) as [out2 H2];
          destruct (restyle_text_with_pi w cfg v l pv t0) as [[p|e] tr2];
          simpl in H2; subst tr2
      end.
      * destruct (is_none p); simpl; eexists;
          rewrite <- !app_assoc; simpl; reflexivity.
      * simpl. eexists. rewrite <- !app_assoc. simpl. reflexivity.
  - simpl. exists out1. rewrite <- app_assoc. reflexivity.
Qed.

Lemma main_run_ok w cfg stdin tr :
  version_ok (PI_VERSION cfg) = true ->
  main w cfg stdin tr
  = session_loop w cfg stdin
      (tr ++ [Print ("Qwen-Pi CLI Chat. Using " ++ PI_VERSION cfg
                     ++ " as Pi. Type 'exit' to quit.")])%list.
Proof.
  unfold version_ok, main. intros V. apply negb_true_iff in V.
  rewrite V. reflexivity.
Qed.

Lemma main_run_invalid w cfg stdin tr :
  version_ok (PI_VERSION cfg) = false ->
  main w cfg stdin tr
  = (Raise (Exn ValueError
              ("Invalid Pi version: " ++ PI_VERSION cfg
               ++ ", must be 'Pi-3.1' or 'inflection_3_pi'")), tr).
Proof.
  unfold version_ok, main. intros V. apply negb_false_iff in V.
  rewrite V. reflexivity.
Qed.

(** An unrecognised version stops the program before the banner. *)
Example main_bogus_version :
  main answering_world bogus_config ["What is the capital of France?"] []
  = (Raise (Exn ValueError
              "Invalid Pi version: bogus, must be 'Pi-3.1' or 'inflection_3_pi'"),
     []).
Proof. reflexivity. Qed.

(** A full turn followed by the exit command. *)
Example main_paris_then_exit :
  main answering_world sample_config
    ["What is the capital of France?"; "EXIT"] []
  = (Ok tt,
     [Print "Qwen-Pi CLI Chat. Using Pi-3.1 as Pi. Type 'exit' to quit.";
      Input PROMPT "What is the capital of France?";
      Print THINKING_LINE;
      HttpPost (of_env (VLLM_URL sample_config))
        (qwen_payload sample_config "What is the capital of France?")
        (qwen_headers sample_config);
      Print QWEN_LABEL;
      Print "Paris is the capital of France.";
      Print RESTYLE_LINE;
      HttpPost (JStr PI_URL_V2)
        (pi_payload answering_world
           (JStr "Paris is the capital of France.")
           "What is the capital of France?" "Pi-3.1")
        (pi_headers sample_config);
      Print PI_LABEL;
      Print "Paris is the capital of France.";
      Input PROMPT "EXIT"]).
Proof. reflexivity. Qed.


(** C9.  When [PI_VERSION] is one of the two recognised values, so that
    the check at startup passes, the version test inside
    [restyle_text_with_pi] succeeds whenever the loop calls it: no call
    with [PI_VERSION], no turn and no session ends in a [ValueError]. *)
Theorem C9_value_error_unreachable w cfg :
  PI_VERSION cfg = "Pi-3.1" \/ PI_VERSION cfg = "inflection_3_pi" ->
  (exists url, select_pi_url (PI_VERSION cfg) = Ok url)
  /\ (forall t q tr e tr',
        restyle_text_with_pi w cfg t q (PI_VERSION cfg) tr = (Raise e, tr') ->
        isinstance e ValueError = false)
  /\ (forall l tr e tr',
        turn w cfg l tr = (Raise e, tr') -> isinstance e ValueError = false)
  /\ (forall stdin e tr',
        main w cfg stdin [] = (Raise e, tr') ->
        isinstance e ValueError = false).
Proof.
  intros P.
  assert (V : version_ok (PI_VERSION cfg) = true).
  { apply version_ok_iff. tauto. }
  destruct (select_pi_url_ok _ V) as [url U].
  split; [exists url; exact U|]. split; [|split].
  - intros t q tr e tr' H. erewrite restyle_run_ok in H by exact U.
    apply not_exception_not_value_error.
    eapply api_call_escape. exact H.
  - intros l tr e tr' H. apply not_exception_not_value_error.
    eapply turn_escape; eassumption.
  - intros stdin e tr' H. rewrite (main_run_ok w cfg stdin [] V) in H.
    pose proof (session_loop_outcome w cfg V stdin _ H) as S. simpl in S.
    destruct S as [[-> _]|N]; [reflexivity|].
    apply not_exception_not_value_error. exact N.
Qed.

Lemma C9_witness :
  (PI_VERSION sample_config = "Pi-3.1"
   \/ PI_VERSION sample_config = "inflection_3_pi")
  /\ exists url, select_pi_url (PI_VERSION sample_config) = Ok url.
Proof.
  split; [left; reflexivity|].
  destruct (@C9_value_error_unreachable answering_world sample_config
              (or_introl eq_refl)) as [H _].
  exact H.
Defined.

(** C10.  A line whose lower-cased form is not "exit" (the empty line
    and " exit " among them) starts a turn: the loop calls
    [get_factual_answer_from_qwen] with the line as it was read, so the
    request that follows carries that very line as the content of its
    user message. *)
Theorem C10_non_exit_line_is_query w cfg l rest tr :
  lower l <> "exit" ->
  session_loop w cfg (l :: rest) tr
  = (turn w cfg l ;;; session_loop w cfg rest) (tr ++ [Input PROMPT l])%list
  /\ (exists out,
        snd (turn w cfg l (tr ++ [Input PROMPT l])%list)
        = (tr ++ [Input PROMPT l; Print THINKING_LINE;
                  HttpPost (of_env (VLLM_URL cfg)) (qwen_payload cfg l)
                    (qwen_headers cfg)] ++ out)%list)
  /\ getitem (qwen_payload cfg l) (Key "messages")
     = Ok (JArr [JObj [("role", JStr "system");
                       ("content", JStr QWEN_SYSTEM_PROMPT)];
                 JObj [("role", JStr "user"); ("content", JStr l)]])
  /\ lower "" <> "exit"
  /\ lower " exit " <> "exit".
Proof.
  intros N. split; [|split; [|split; [|split]]].
  - apply session_loop_step. apply String.eqb_neq. exact N.
  - destruct (turn_starts_with_request w cfg l (tr ++ [Input PROMPT l])%list)
      as [out H].
    exists out. rewrite H. rewrite <- app_assoc. reflexivity.
  - reflexivity.
  - intros H. discriminate H.
  - intros H. discriminate H.
Qed.

Lemma C10_witness :
  lower " exit " <> "exit"
  /\ exists out,
       snd (turn offline_world sample_config " exit "
              [Input PROMPT " exit "])
       = ([Input PROMPT " exit "; Print THINKING_LINE;
           HttpPost (of_env (VLLM_URL sample_config))
             (qwen_payload sample_config " exit ")
             (qwen_headers sample_config)] ++ out)%list.
Proof.
  assert (N : lower " exit " <> "exit") by (intros H; discriminate H).
  split; [exact N|].
  destruct (@C10_non_exit_line_is_query offline_world sample_config
              " exit " [] [] N) as (_ & H & _).
  exact H.
Defined.

(** * Further properties of the code *)

(** ** One guarded call *)

Lemma append_inj_l (p a b : string) : p ++ a = p ++ b -> a = b.
Proof.
  induction p as [|c p IH]; simpl; intros H; [exact H|].
  injection H as H. apply IH. exact H.
Qed.

Lemma is_none_true v : is_none v = true -> v = JNull.
Proof. destruct v; simpl; intros H; first [reflexivity | discriminate H]. Qed.

(** A value other than [None] comes out of a guarded call only when the
    [try] body produced it, and then nothing was printed. *)
Lemma api_call_value w url payload headers tr c tr' :
  try_except (post_and_extract w url payload headers) api_handlers tr
  = (Ok c, tr') ->
  is_none c = false ->
  body_outcome w tr url payload headers = Ok c
  /\ tr' = (tr ++ [HttpPost url payload headers])%list.
Proof.
  rewrite api_call_run. intros H N.
  destruct (body_outcome w tr url payload headers) as [v|e].
  - injection H as -> <-. split; reflexivity.
  - destruct (diagnostic e); [|discriminate H].
    injection H as <- _. discriminate N.
Qed.

(** When a guarded call gives [None], it sent its request and printed at
    most one line, which is a diagnostic. *)
Lemma api_call_none w url payload headers tr tr' :
  try_except (post_and_extract w url payload headers) api_handlers tr
  = (Ok JNull, tr') ->
  exists diag,
    tr' = (tr ++ HttpPost url payload headers :: map Print diag)%list
    /\ (diag = [] \/ exists e d, diagnostic e = Some d /\ diag = [d]).
Proof.
  rewrite api_call_run. intros H.
  destruct (body_outcome w tr url payload headers) as [v|e].
  - injection H as _ <-. exists []. split; [reflexivity | left; reflexivity].
  - destruct (diagnostic e) as [d|] eqn:D; [|discriminate H].
    injection H as <-. exists [d]. split; [reflexivity|].
    right. exists e, d. split; [exact D | reflexivity].
Qed.

Lemma body_outcome_ok w tr url payload headers c :
  body_outcome w tr url payload headers = Ok c ->
  exists resp u data,
    requests_post w tr url payload headers = Ok resp
    /\ raise_for_status resp = Ok u
    /\ response_json resp = Ok data
    /\ first_choice_content_is data c.
Proof.
  unfold body_outcome. intros H.
  destruct (requests_post w tr url payload headers) as [resp|e];
    [|discriminate H].
  destruct (raise_for_status resp) as [u|e] eqn:S; [|discriminate H].
  destruct (response_json resp) as [data|e] eqn:J; [|discriminate H].
  exists resp, u, data. repeat split; try assumption.
  apply first_choice_content_spec. exact H.
Qed.

(** X1.  An answer is never made up: when either function returns a
    value other than [None], the request succeeded, [raise_for_status]
    passed, the body decoded, and the value is the [content] of the
    [message] of the first choice; the call printed nothing. *)
Theorem X1_answer_comes_from_response w cfg q t v c tr tr' :
  is_none c = false ->
  (get_factual_answer_from_qwen w cfg q tr = (Ok c, tr') ->
   tr' = (tr ++ [HttpPost (of_env (VLLM_URL cfg)) (qwen_payload cfg q)
                   (qwen_headers cfg)])%list
   /\ exists resp u data,
        requests_post w tr (of_env (VLLM_URL cfg)) (qwen_payload cfg q)
          (qwen_headers cfg) = Ok resp
        /\ raise_for_status resp = Ok u
        /\ response_json resp = Ok data
        /\ first_choice_content_is data c)
  /\ (restyle_text_with_pi w cfg t q v tr = (Ok c, tr') ->
      exists url,
        select_pi_url v = Ok url
        /\ tr' = (tr ++ [HttpPost (JStr url) (pi_payload w t q v)
                           (pi_headers cfg)])%list
        /\ exists resp u data,
             requests_post w tr (JStr url) (pi_payload w t q v)
               (pi_headers cfg) = Ok resp
             /\ raise_for_status resp = Ok u
             /\ response_json resp = Ok data
             /\ first_choice_content_is data c).
Proof.
  intros N. split.
  - intros H. unfold get_factual_answer_from_qwen in H.
    destruct (api_call_value _ _ _ _ _ H N) as [B ->].
    split; [reflexivity|]. apply body_outcome_ok. exact B.
  - intros H. destruct (select_pi_url v) as [url|e] eqn:U.
    + erewrite restyle_run_ok in H by exact U.
      destruct (api_call_value _ _ _ _ _ H N) as [B ->].
      exists url. split; [reflexivity|]. split; [reflexivity|].
      apply body_outcome_ok. exact B.
    + erewrite restyle_run_invalid in H by exact U. discriminate H.
Qed.

Lemma X1_witness :
  is_none (JStr "Paris is the capital of France.") = false
  /\ exists resp u data,
       requests_post answering_world [] (of_env (VLLM_URL sample_config))
         (qwen_payload sample_config "What is the capital of France?")
         (qwen_headers sample_config) = Ok resp
       /\ raise_for_status resp = Ok u
       /\ response_json resp = Ok data
       /\ first_choice_content_is data
            (JStr "Paris is the capital of France.").
Proof.
  split; [reflexivity|].
  destruct (@X1_answer_comes_from_response answering_world sample_config
              "What is the capital of France?" JNull "Pi-3.1"
              (JStr "Paris is the capital of France.") []
              [HttpPost (of_env (VLLM_URL sample_config))
                 (qwen_payload sample_config
                    "What is the capital of France?")
                 (qwen_headers sample_config)] eq_refl) as [H _].
  destruct (H eq_refl) as [_ R]. exact R.
Defined.

(** ** Malformed and failed responses *)

Lemma body_outcome_decoded w tr url payload headers resp u data :
  requests_post w tr url payload headers = Ok resp ->
  raise_for_status resp = Ok u ->
  response_json resp = Ok data ->
  body_outcome w tr url payload headers = first_choice_content data.
Proof.
  intros P S J. unfold body_outcome. rewrite P, S, J. reflexivity.
Qed.

Lemma missing_key_raises data k :
  missing_key data k ->
  first_choice_content data = Raise (Exn KeyError ("'" ++ k ++ "'")).
Proof.
  intros (fields & -> & [[-> E1] | (mf & more & E1 & H)]);
    unfold first_choice_content; simpl; rewrite E1; [reflexivity|].
  change (getitem (JArr (JObj mf :: more)) (Idx 0)) with (Ok (JObj mf)).
  simpl. destruct H as [[-> E2] | (cf & E2 & -> & E3)]; rewrite E2;
    [reflexivity|].
  simpl. rewrite E3. reflexivity.
Qed.

Lemma not_dict_raises data :
  is_dict data = false ->
  exists m, first_choice_content data = Raise (Exn TypeError m).
Proof.
  destruct data; simpl; intros H; try discriminate H;
    eexists; reflexivity.
Qed.

(** What either function does once its [try] body has raised [e]. *)
Lemma api_call_raised w url payload headers tr e :
  body_outcome w tr url payload headers = Raise e ->
  isinstance e Exception = true ->
  try_except (post_and_extract w url payload headers) api_handlers tr
  = (Ok JNull,
     (tr ++ [HttpPost url payload headers;
             Print (diagnostic_prefix e ++ exn_str e)])%list).
Proof.
  intros B H. rewrite api_call_run, B, (diagnostic_prefix_spec e H).
  reflexivity.
Qed.

(** X2.  When the body of a successful response is a dict in which one
    of the keys [choices], [message], [content] is missing on the way to
    the answer, both functions return [None] and print
    [Error parsing response: missing key] followed by that key in
    quotes. *)
Theorem X2_missing_key_reported w cfg q t v url tr resp u data k :
  raise_for_status resp = Ok u ->
  response_json resp = Ok data ->
  missing_key data k ->
  (requests_post w tr (of_env (VLLM_URL cfg)) (qwen_payload cfg q)
     (qwen_headers cfg) = Ok resp ->
   get_factual_answer_from_qwen w cfg q tr
   = (Ok JNull,
      (tr ++ [HttpPost (of_env (VLLM_URL cfg)) (qwen_payload cfg q)
                (qwen_headers cfg);
              Print ("Error parsing response: missing key '" ++ k ++ "'")])%list))
  /\ (select_pi_url v = Ok url ->
      requests_post w tr (JStr url) (pi_payload w t q v) (pi_headers cfg)
      = Ok resp ->
      restyle_text_with_pi w cfg t q v tr
      = (Ok JNull,
         (tr ++ [HttpPost (JStr url) (pi_payload w t q v) (pi_headers cfg);
                 Print ("Error parsing response: missing key '" ++ k
                        ++ "'")])%list)).
Proof.
  intros S J K. apply missing_key_raises in K. split.
  - intros P. unfold get_factual_answer_from_qwen.
    rewrite (@api_call_raised w _ _ _ tr (Exn KeyError ("'" ++ k ++ "'")));
      [reflexivity | | reflexivity].
    rewrite (body_outcome_decoded _ _ _ _ _ P S J). exact K.
  - intros U P. erewrite restyle_run_ok by exact U.
    rewrite (@api_call_raised w _ _ _ tr (Exn KeyError ("'" ++ k ++ "'")));
      [reflexivity | | reflexivity].
    rewrite (body_outcome_decoded _ _ _ _ _ P S J). exact K.
Qed.

Lemma X2_witness :
  missing_key (JObj [("error", JStr "model overloaded")]) "choices"
  /\ get_factual_answer_from_qwen error_body_world sample_config "hi" []
     = (Ok JNull,
        [HttpPost (of_env (VLLM_URL sample_config))
           (qwen_payload sample_config "hi") (qwen_headers sample_config);
         Print "Error parsing response: missing key 'choices'"]).
Proof.
  assert (K : missing_key (JObj [("error", JStr "model overloaded")])
                "choices").
  { eexists. split; [reflexivity|]. left. split; reflexivity. }
  split; [exact K|].
  destruct (@X2_missing_key_reported error_body_world sample_config "hi"
              JNull "Pi-3.1" PI_URL_V2 []
              (Response (Ok tt)
                 (Ok (JObj [("error", JStr "model overloaded")])))
              tt (JObj [("error", JStr "model overloaded")]) "choices"
              eq_refl eq_refl K) as [H _].
  apply H. reflexivity.
Defined.

(** X3.  A successful response whose [choices] is an empty list, or
    whose body is not a dict at all, is not reported as a missing key:
    both functions return [None] and print a line of the generic clause,
    [Unexpected error occurred:], for the empty list followed by
    [list index out of range]. *)
Theorem X3_wrong_shape_is_unexpected w cfg q t v url tr resp u data :
  raise_for_status resp = Ok u ->
  response_json resp = Ok data ->
  (is_dict data = false
   \/ exists fields,
        data = JObj fields /\ dict_get fields "choices" = Some (JArr [])) ->
  exists m,
    (is_dict data = true -> m = "list index out of range")
    /\ (requests_post w tr (of_env (VLLM_URL cfg)) (qwen_payload cfg q)
          (qwen_headers cfg) = Ok resp ->
        get_factual_answer_from_qwen w cfg q tr
        = (Ok JNull,
           (tr ++ [HttpPost (of_env (VLLM_URL cfg)) (qwen_payload cfg q)
                     (qwen_headers cfg);
                   Print ("Unexpected error occurred: " ++ m)])%list))
    /\ (select_pi_url v = Ok url ->
        requests_post w tr (JStr url) (pi_payload w t q v) (pi_headers cfg)
        = Ok resp ->
        restyle_text_with_pi w cfg t q v tr
        = (Ok JNull,
           (tr ++ [HttpPost (JStr url) (pi_payload w t q v)
                     (pi_headers cfg);
                   Print ("Unexpected error occurred: " ++ m)])%list)).
Proof.
  intros S J H.
  assert (E : exists c m,
             first_choice_content data = Raise (Exn c m)
             /\ (c = TypeError \/ c = IndexError)
             /\ (is_dict data = true -> m = "list index out of range")).
  { destruct H as [D | (fields & -> & C)].
    - destruct (not_dict_raises data D) as [m F].
      exists TypeError, m. split; [exact F|]. split; [left; reflexivity|].
      intros T. congruence.
    - exists IndexError, "list index out of range".
      split; [|split; [right; reflexivity | reflexivity]].
      unfold first_choice_content. simpl. rewrite C. reflexivity. }
  destruct E as (c & m & F & C & M). exists m. split; [exact M|].
  assert (P1 : diagnostic_prefix (Exn c m) = "Unexpected error occurred: ")
    by (destruct C as [-> | ->]; reflexivity).
  assert (P2 : isinstance (Exn c m) Exception = true)
    by (destruct C as [-> | ->]; reflexivity).
  split.
  - intros P. unfold get_factual_answer_from_qwen.
    rewrite (@api_call_raised w _ _ _ tr (Exn c m));
      [rewrite P1; reflexivity | | exact P2].
    rewrite (body_outcome_decoded _ _ _ _ _ P S J). exact F.
  - intros U P. erewrite restyle_run_ok by exact U.
    rewrite (@api_call_raised w _ _ _ tr (Exn c m));
      [rewrite P1; reflexivity | | exact P2].
    rewrite (body_outcome_decoded _ _ _ _ _ P S J). exact F.
Qed.

Lemma X3_witness :
  (exists fields,
     JObj [("choices", JArr [])] = JObj fields
     /\ dict_get fields "choices" = Some (JArr []))
  /\ get_factual_answer_from_qwen empty_choices_world sample_config "hi" []
     = (Ok JNull,
        [HttpPost (of_env (VLLM_URL sample_config))
           (qwen_payload sample_config "hi") (qwen_headers sample_config);
         Print "Unexpected error occurred: list index out of range"]).
Proof.
  assert (K : exists fields,
             JObj [("choices", JArr [])] = JObj fields
             /\ dict_get fields "choices" = Some (JArr [])).
  { eexists. split; reflexivity. }
  split; [exact K|].
  destruct (@X3_wrong_shape_is_unexpected empty_choices_world sample_config
              "hi" JNull "Pi-3.1" PI_URL_V2 []
              (Response (Ok tt) (Ok (JObj [("choices", JArr [])])))
              tt (JObj [("choices", JArr [])])
              eq_refl eq_refl (or_intror K)) as (m & M & H & _).
  rewrite (M eq_refl) in H. apply H. reflexivity.
Defined.

(** X4.  The status check comes before the body is looked at: when
    [raise_for_status] raises an [HTTPError], both functions return
    [None] and print [Request error occurred:] with its text, whatever
    [json] would have given, a well-formed answer included. *)
Theorem X4_error_status_overrides_body w cfg q t v url tr resp e :
  raise_for_status resp = Raise e ->
  exn_cls e = HTTPError ->
  (requests_post w tr (of_env (VLLM_URL cfg)) (qwen_payload cfg q)
     (qwen_headers cfg) = Ok resp ->
   get_factual_answer_from_qwen w cfg q tr
   = (Ok JNull,
      (tr ++ [HttpPost (of_env (VLLM_URL cfg)) (qwen_payload cfg q)
                (qwen_headers cfg);
              Print ("Request error occurred: " ++ exn_str e)])%list))
  /\ (select_pi_url v = Ok url ->
      requests_post w tr (JStr url) (pi_payload w t q v) (pi_headers cfg)
      = Ok resp ->
      restyle_text_with_pi w cfg t q v tr
      = (Ok JNull,
         (tr ++ [HttpPost (JStr url) (pi_payload w t q v) (pi_headers cfg);
                 Print ("Request error occurred: " ++ exn_str e)])%list)).
Proof.
  intros S C.
  assert (P1 : diagnostic_prefix e = "Request error occurred: ").
  { destruct e as [c s]. simpl in C. subst c. reflexivity. }
  assert (P2 : isinstance e Exception = true).
  { destruct e as [c s]. simpl in C. subst c. reflexivity. }
  split.
  - intros P. unfold get_factual_answer_from_qwen.
    rewrite (@api_call_raised w _ _ _ tr e);
      [rewrite P1; reflexivity | | exact P2].
    unfold body_outcome. rewrite P, S. reflexivity.
  - intros U P. erewrite restyle_run_ok by exact U.
    rewrite (@api_call_raised w _ _ _ tr e);
      [rewrite P1; reflexivity | | exact P2].
    unfold body_outcome. rewrite P, S. reflexivity.
Qed.

Lemma X4_witness :
  response_json (Response (Raise (Exn HTTPError "500 Server Error"))
                   (Ok paris_data)) = Ok paris_data
  /\ get_factual_answer_from_qwen http500_world sample_config "hi" []
     = (Ok JNull,
        [HttpPost (of_env (VLLM_URL sample_config))
           (qwen_payload sample_config "hi") (qwen_headers sample_config);
         Print "Request error occurred: 500 Server Error"]).
Proof.
  split; [reflexivity|].
  destruct (@X4_error_status_overrides_body http500_world sample_config
              "hi" JNull "Pi-3.1" PI_URL_V2 []
              (Response (Raise (Exn HTTPError "500 Server Error"))
                 (Ok paris_data))
              (Exn HTTPError "500 Server Error") eq_refl eq_refl)
    as [H _].
  apply H. reflexivity.
Defined.

(** ** The turn as a whole *)

Lemma turn_run w cfg l tr :
  turn w cfg l tr
  = match get_factual_answer_from_qwen w cfg l
            (tr ++ [Print THINKING_LINE])%list with
    | (Raise e, tr1) => (Raise e, tr1)
    | (Ok v, tr1) =>
        if is_none v then (Ok tt, tr1)
        else
          match restyle_text_with_pi w cfg v l (PI_VERSION cfg)
                  (tr1 ++ [Print QWEN_LABEL; Print (format_value w v);
                           Print RESTYLE_LINE])%list with
          | (Raise e, tr2) => (Raise e, tr2)
          | (Ok p, tr2) =>
              if is_none p then (Ok tt, tr2)
              else (Ok tt,
                    (tr2 ++ [Print PI_LABEL;
                             Print (format_value w p)])%list)
          end
    end.
Proof.
  unfold turn, bind, print, emit.
  destruct (get_factual_answer_from_qwen w cfg l
              (tr ++ [Print THINKING_LINE])%list) as [[v|e] tr1];
    [|reflexivity].
  destruct (is_none v); simpl; [reflexivity|].
  rewrite <- !app_assoc. simpl.
  destruct (restyle_text_with_pi w cfg v l (PI_VERSION cfg) _)
    as [[p|e] tr2]; [|reflexivity].
  destruct (is_none p); simpl; [reflexivity|].
  rewrite <- !app_assoc. reflexivity.
Qed.

(** X5.  A successful response whose [content] is [null] ends the turn
    without a trace on the console: the function returns [None] without
    printing a diagnostic, so after the thinking line the turn prints
    nothing, sends no second request, and the loop reads the next
    line. *)
Theorem X5_null_content_is_silent w cfg l rest tr resp u data :
  lower l <> "exit" ->
  requests_post w (tr ++ [Input PROMPT l; Print THINKING_LINE])%list
    (of_env (VLLM_URL cfg)) (qwen_payload cfg l) (qwen_headers cfg)
  = Ok resp ->
  raise_for_status resp = Ok u ->
  response_json resp = Ok data ->
  first_choice_content_is data JNull ->
  session_loop w cfg (l :: rest) tr
  = session_loop w cfg rest
      (tr ++ [Input PROMPT l; Print THINKING_LINE;
              HttpPost (of_env (VLLM_URL cfg)) (qwen_payload cfg l)
                (qwen_headers cfg)])%list.
Proof.
  intros N P S J F. apply first_choice_content_spec in F.
  rewrite session_loop_step by (apply String.eqb_neq; exact N).
  unfold bind. rewrite turn_run. rewrite <- app_assoc. simpl.
  rewrite get_factual_run.
  rewrite (body_outcome_decoded _ _ _ _ _ P S J), F. simpl.
  rewrite <- app_assoc. reflexivity.
Qed.

Lemma X5_witness :
  lower "hi" <> "exit"
  /\ session_loop null_content_world sample_config ["hi"; "exit"] []
     = (Ok tt,
        [Input PROMPT "hi"; Print THINKING_LINE;
         HttpPost (of_env (VLLM_URL sample_config))
           (qwen_payload sample_config "hi") (qwen_headers sample_config);
         Input PROMPT "exit"]).
Proof.
  assert (N : lower "hi" <> "exit") by (intros H; discriminate H).
  split; [exact N|].
  rewrite (@X5_null_content_is_silent null_content_world sample_config
             "hi" ["exit"] []
             (Response (Ok tt)
                (Ok (JObj [("choices",
                            JArr [JObj [("message",
                                         JObj [("role", JStr "assistant");
                                               ("content", JNull)])]])])))
             tt
             (JObj [("choices",
                     JArr [JObj [("message",
                                  JObj [("role", JStr "assistant");
                                        ("content", JNull)])]])])
             N eq_refl eq_refl eq_refl).
  - reflexivity.
  - exists [("choices",
             JArr [JObj [("message",
                          JObj [("role", JStr "assistant");
                                ("content", JNull)])]])],
      [("message", JObj [("role", JStr "assistant"); ("content", JNull)])],
      [("role", JStr "assistant"); ("content", JNull)], [].
    repeat split.
Defined.

Lemma restyle_returns_selects w cfg t q v tr r tr' :
  restyle_text_with_pi w cfg t q v tr = (Ok r, tr') ->
  exists url,
    select_pi_url v = Ok url
    /\ try_except
         (post_and_extract w (JStr url) (pi_payload w t q v)
            (pi_headers cfg)) api_handlers tr = (Ok r, tr').
Proof.
  intros H. destruct (select_pi_url v) as [url|e] eqn:U.
  - erewrite restyle_run_ok in H by exact U. exists url. auto.
  - erewrite restyle_run_invalid in H by exact U. discriminate H.
Qed.

(** X6.  When the analytical call gave an answer and the persona call
    gives [None], the turn still ends normally: the answer has been
    printed under its label, the persona request was sent with that
    answer and the line as typed, at most one diagnostic follows, and
    the label of the styled answer is not printed. *)
Theorem X6_persona_failure_keeps_answer w cfg l tr answer tr1 tr2 :
  get_factual_answer_from_qwen w cfg l (tr ++ [Print THINKING_LINE])%list
  = (Ok answer, tr1) ->
  is_none answer = false ->
  restyle_text_with_pi w cfg answer l (PI_VERSION cfg)
    (tr1 ++ [Print QWEN_LABEL; Print (format_value w answer);
             Print RESTYLE_LINE])%list
  = (Ok JNull, tr2) ->
  turn w cfg l tr = (Ok tt, tr2)
  /\ exists url diag,
       select_pi_url (PI_VERSION cfg) = Ok url
       /\ posts tr2
          = (posts tr
             ++ [(of_env (VLLM_URL cfg), qwen_payload cfg l,
                  qwen_headers cfg);
                 (JStr url, pi_payload w answer l (PI_VERSION cfg),
                  pi_headers cfg)])%list
       /\ printed tr2
          = (printed tr
             ++ [THINKING_LINE; QWEN_LABEL; format_value w answer;
                 RESTYLE_LINE] ++ diag)%list
       /\ (List.length diag <= 1)%nat
       /\ ~ In PI_LABEL diag.
Proof.
  intros G N R. split.
  - rewrite turn_run, G, N, R. reflexivity.
  - unfold get_factual_answer_from_qwen in G.
    destruct (api_call_value _ _ _ _ _ G N) as [_ ->].
    destruct (restyle_returns_selects _ _ _ _ _ _ R) as (url & U & R').
    destruct (api_call_none _ _ _ _ _ R') as (diag & -> & D).
    exists url, diag. split; [exact U|].
    rewrite !posts_app, !printed_app. simpl.
    assert (PM : forall ds, posts (map Print ds) = []).
    { induction ds; simpl; auto. }
    assert (QM : forall ds, printed (map Print ds) = ds).
    { induction ds as [|d ds IH]; simpl; [|rewrite IH]; reflexivity. }
    rewrite PM, QM, !app_nil_r, <- !app_assoc. simpl.
    split; [reflexivity|]. split; [reflexivity|].
    destruct D as [-> | (e & d & D & ->)]; simpl.
    + split; [lia | tauto].
    + split; [lia|]. apply diagnostic_not_label in D.
      intros [C|[]]. destruct D as [D _]. congruence.
Qed.

Lemma X6_witness :
  is_none (JStr "Paris is the capital of France.") = false
  /\ turn pi_down_world sample_config "What is the capital of France?" []
     = (Ok tt,
        [Print THINKING_LINE;
         HttpPost (of_env (VLLM_URL sample_config))
           (qwen_payload sample_config "What is the capital of France?")
           (qwen_headers sample_config);
         Print QWEN_LABEL;
         Print "Paris is the capital of France.";
         Print RESTYLE_LINE;
         HttpPost (JStr PI_URL_V2)
           (pi_payload pi_down_world
              (JStr "Paris is the capital of France.")
              "What is the capital of France?" "Pi-3.1")
           (pi_headers sample_config);
         Print "Connection error occurred: Connection refused"]).
Proof.
  split; [reflexivity|].
  apply (@X6_persona_failure_keeps_answer pi_down_world sample_config
           "What is the capital of France?" []
           (JStr "Paris is the capital of France.")
           [Print THINKING_LINE;
            HttpPost (of_env (VLLM_URL sample_config))
              (qwen_payload sample_config
                 "What is the capital of France?")
              (qwen_headers sample_config)]);
    reflexivity.
Defined.

(** X7.  When both calls give a value, the turn sends exactly two
    requests, the second built from the first one's answer and the line
    as typed, and prints, in this order, the thinking line, the answer
    under its label, the restyling line and the styled answer under its
    label; neither call prints anything itself. *)
Theorem X7_complete_turn w cfg l tr answer tr1 styled tr2 :
  get_factual_answer_from_qwen w cfg l (tr ++ [Print THINKING_LINE])%list
  = (Ok answer, tr1) ->
  is_none answer = false ->
  restyle_text_with_pi w cfg answer l (PI_VERSION cfg)
    (tr1 ++ [Print QWEN_LABEL; Print (format_value w answer);
             Print RESTYLE_LINE])%list
  = (Ok styled, tr2) ->
  is_none styled = false ->
  exists url,
    select_pi_url (PI_VERSION cfg) = Ok url
    /\ turn w cfg l tr
       = (Ok tt,
          (tr ++ [Print THINKING_LINE;
                  HttpPost (of_env (VLLM_URL cfg)) (qwen_payload cfg l)
                    (qwen_headers cfg);
                  Print QWEN_LABEL;
                  Print (format_value w answer);
                  Print RESTYLE_LINE;
                  HttpPost (JStr url)
                    (pi_payload w answer l (PI_VERSION cfg))
                    (pi_headers cfg);
                  Print PI_LABEL;
                  Print (format_value w styled)])%list).
Proof.
  intros G N R M.
  rewrite turn_run, G, N, R, M.
  unfold get_factual_answer_from_qwen in G.
  destruct (api_call_value _ _ _ _ _ G N) as [_ ->].
  destruct (restyle_returns_selects _ _ _ _ _ _ R) as (url & U & R').
  destruct (api_call_value _ _ _ _ _ R' M) as [_ ->].
  exists url. split; [exact U|].
  rewrite <- !app_assoc. reflexivity.
Qed.

Lemma X7_witness :
  is_none (JStr "Paris is the capital of France.") = false
  /\ exists url,
       select_pi_url (PI_VERSION sample_config) = Ok url
       /\ turn answering_world sample_config
            "What is the capital of France?" []
          = (Ok tt,
             [Print THINKING_LINE;
              HttpPost (of_env (VLLM_URL sample_config))
                (qwen_payload sample_config
                   "What is the capital of France?")
                (qwen_headers sample_config);
              Print QWEN_LABEL;
              Print "Paris is the capital of France.";
              Print RESTYLE_LINE;
              HttpPost (JStr url)
                (pi_payload answering_world
                   (JStr "Paris is the capital of France.")
                   "What is the capital of France?" "Pi-3.1")
                (pi_headers sample_config);
              Print PI_LABEL;
              Print "Paris is the capital of France."]).
Proof.
  split; [reflexivity|].
  apply (@X7_complete_turn answering_world sample_config
           "What is the capital of France?" []
           (JStr "Paris is the capital of France.")
           [Print THINKING_LINE;
            HttpPost (of_env (VLLM_URL sample_config))
              (qwen_payload sample_config
                 "What is the capital of France?")
              (qwen_headers sample_config)]
           (JStr "Paris is the capital of France.")
           [Print THINKING_LINE;
            HttpPost (of_env (VLLM_URL sample_config))
              (qwen_payload sample_config
                 "What is the capital of France?")
              (qwen_headers sample_config);
            Print QWEN_LABEL;
            Print "Paris is the capital of France.";
            Print RESTYLE_LINE;
            HttpPost (JStr PI_URL_V2)
              (pi_payload answering_world
                 (JStr "Paris is the capital of France.")
                 "What is the capital of France?" "Pi-3.1")
              (pi_headers sample_config)]);
    reflexivity.
Defined.

(** ** Whole sessions *)

Lemma turn_posts w cfg l tr :
  exists reqs,
    posts (snd (turn w cfg l tr))
    = (posts tr
       ++ (of_env (VLLM_URL cfg), qwen_payload cfg l, qwen_headers cfg)
          :: reqs)%list
    /\ (reqs = []
        \/ exists url answer,
             select_pi_url (PI_VERSION cfg) = Ok url
             /\ is_none answer = false
             /\ reqs = [(JStr url, pi_payload w answer l (PI_VERSION cfg),
                         pi_headers cfg)]).
Proof.
  rewrite turn_run.
  pose proof (get_factual_posts w cfg l (tr ++ [Print THINKING_LINE])%list)
    as G.
  rewrite posts_app in G. simpl in G. rewrite app_nil_r in G.
  destruct (get_factual_answer_from_qwen w cfg l
              (tr ++ [Print THINKING_LINE])%list) as [[v|e] tr1];
    simpl in G.
  2:{ exists []. split; [exact G | left; reflexivity]. }
  destruct (is_none v) eqn:N.
  { exists []. split; [exact G | left; reflexivity]. }
  set (t0 := (tr1 ++ [Print QWEN_LABEL; Print (format_value w v);
                      Print RESTYLE_LINE])%list).
  assert (P0 : posts t0 = posts tr1).
  { unfold t0. rewrite posts_app. simpl. apply app_nil_r. }
  destruct (select_pi_url (PI_VERSION cfg)) as [url|e] eqn:U.
  - pose proof (@restyle_posts w cfg v l (PI_VERSION cfg) url t0 U) as R.
    rewrite P0, G, <- app_assoc in R. simpl in R.
    exists [(JStr url, pi_payload w v l (PI_VERSION cfg), pi_headers cfg)].
    split; [|right; exists url, v; auto].
    destruct (restyle_text_with_pi w cfg v l (PI_VERSION cfg) t0)
      as [[p|e] tr2]; simpl in R; [|exact R].
    destruct (is_none p); simpl; [exact R|].
    rewrite posts_app. simpl. rewrite app_nil_r. exact R.
  - erewrite restyle_run_invalid by exact U. simpl.
    exists []. split; [rewrite P0; exact G | left; reflexivity].
Qed.

Lemma session_loop_cons_trace w cfg l rest tr :
  snd (session_loop w cfg (l :: rest) tr)
  = if is_exit l then (tr ++ [Input PROMPT l])%list
    else
      match turn w cfg l (tr ++ [Input PROMPT l])%list with
      | (Ok _, tr1) => snd (session_loop w cfg rest tr1)
      | (Raise _, tr1) => tr1
      end.
Proof.
  unfold is_exit. destruct (String.eqb (lower l) "exit") eqn:E.
  - rewrite (session_loop_exit w cfg l rest tr E). reflexivity.
  - rewrite (session_loop_step w cfg l rest tr E). unfold bind.
    destruct (turn w cfg l (tr ++ [Input PROMPT l])%list) as [[u|e] tr1];
      reflexivity.
Qed.

Lemma session_loop_request_count w cfg stdin :
  forall tr,
    (List.length (posts (snd (session_loop w cfg stdin tr)))
     <= List.length (posts tr) + 2 * List.length stdin)%nat.
Proof.
  induction stdin as [|l rest IH]; intros tr.
  - simpl. unfold bind, emit, raise. simpl. rewrite posts_app. simpl.
    rewrite app_nil_r. lia.
  - rewrite session_loop_cons_trace. destruct (is_exit l).
    + rewrite posts_app. simpl. rewrite app_nil_r. lia.
    + destruct (turn_posts w cfg l (tr ++ [Input PROMPT l])%list)
        as (reqs & T & R).
      rewrite posts_app in T. simpl in T. rewrite app_nil_r in T.
      assert (L : (List.length reqs <= 1)%nat).
      { destruct R as [-> | (url & a & _ & _ & ->)]; simpl; lia. }
      destruct (turn w cfg l (tr ++ [Input PROMPT l])%list) as [[u|e] tr1];
        simpl in T.
      * specialize (IH tr1). rewrite T, length_app in IH.
        simpl in IH. simpl List.length. lia.
      * rewrite T, length_app. simpl. lia.
Qed.

Lemma session_loop_request_count_lines w cfg stdin :
  forall tr,
    (List.length (posts (snd (session_loop w cfg stdin tr)))
     <= List.length (posts tr)
        + 2 * List.length (filter (fun l => negb (is_exit l)) stdin))%nat.
Proof.
  induction stdin as [|l rest IH]; intros tr.
  - simpl. unfold bind, emit, raise. simpl. rewrite posts_app. simpl.
    rewrite app_nil_r. lia.
  - rewrite session_loop_cons_trace. cbn [filter].
    destruct (is_exit l); cbn [negb].
    + rewrite posts_app. simpl. rewrite app_nil_r. lia.
    + destruct (turn_posts w cfg l (tr ++ [Input PROMPT l])%list)
        as (reqs & T & R).
      rewrite posts_app in T. simpl in T. rewrite app_nil_r in T.
      assert (L : (List.length reqs <= 1)%nat).
      { destruct R as [-> | (url & a & _ & _ & ->)]; simpl; lia. }
      destruct (turn w cfg l (tr ++ [Input PROMPT l])%list) as [[u|e] tr1];
        simpl in T.
      * specialize (IH tr1). rewrite T, length_app in IH.
        simpl in IH. simpl List.length. lia.
      * rewrite T, length_app. simpl. lia.
Qed.

(** X8.  No retries: a turn sends one request or two, never more; a
    session sends at most two requests for each line read that is not
    an exit line, hence at most two per line of input; and a session
    whose [PI_VERSION] is rejected at startup sends none. *)
Theorem X8_at_most_two_requests_per_line w cfg :
  (forall l tr,
     (List.length (posts tr) + 1
      <= List.length (posts (snd (turn w cfg l tr))))%nat
     /\ (List.length (posts (snd (turn w cfg l tr)))
         <= List.length (posts tr) + 2)%nat)
  /\ (forall stdin,
        (List.length (posts (snd (main w cfg stdin [])))
         <= 2 * List.length (filter (fun l => negb (is_exit l)) stdin))%nat)
  /\ (forall stdin,
        (List.length (posts (snd (main w cfg stdin [])))
         <= 2 * List.length stdin)%nat)
  /\ (forall stdin,
        version_ok (PI_VERSION cfg) = false ->
        posts (snd (main w cfg stdin [])) = []).
Proof.
  split; [|split; [|split]].
  - intros l tr. destruct (turn_posts w cfg l tr) as (reqs & T & R).
    rewrite T, length_app.
    destruct R as [-> | (url & a & _ & _ & ->)]; simpl; lia.
  - intros stdin. destruct (version_ok (PI_VERSION cfg)) eqn:V.
    + rewrite (main_run_ok w cfg stdin [] V).
      match goal with
      | |- context [session_loop w cfg stdin ?t0] =>
          pose proof (session_loop_request_count_lines w cfg stdin t0) as H
      end.
      simpl in H. simpl. lia.
    + rewrite (main_run_invalid w cfg stdin [] V). simpl. lia.
  - intros stdin. destruct (version_ok (PI_VERSION cfg)) eqn:V.
    + rewrite (main_run_ok w cfg stdin [] V).
      match goal with
      | |- context [session_loop w cfg stdin ?t0] =>
          pose proof (session_loop_request_count w cfg stdin t0) as H
      end.
      simpl in H. simpl. lia.
    + rewrite (main_run_invalid w cfg stdin [] V). simpl. lia.
  - intros stdin V. rewrite (main_run_invalid w cfg stdin [] V).
    reflexivity.
Qed.

Lemma X8_witness :
  version_ok (PI_VERSION bogus_config) = false
  /\ posts (snd (main answering_world bogus_config
                   ["What is the capital of France?"; "exit"] [])) = [].
Proof.
  split; [reflexivity|].
  destruct (@X8_at_most_two_requests_per_line answering_world bogus_config)
    as (_ & _ & _ & H).
  apply H. reflexivity.
Defined.

Lemma session_loop_request_targets w cfg stdin :
  forall tr req,
    In req (posts (snd (session_loop w cfg stdin tr))) ->
    In req (posts tr)
    \/ analytical_request cfg stdin req
    \/ persona_request w cfg stdin req.
Proof.
  induction stdin as [|l rest IH]; intros tr req H.
  - simpl in H. unfold bind, emit, raise in H. simpl in H.
    rewrite posts_app in H. simpl in H. rewrite app_nil_r in H.
    left. exact H.
  - rewrite session_loop_cons_trace in H. unfold is_exit in H.
    destruct (String.eqb (lower l) "exit") eqn:E.
    + rewrite posts_app in H. simpl in H. rewrite app_nil_r in H.
      left. exact H.
    + apply String.eqb_neq in E.
      destruct (turn_posts w cfg l (tr ++ [Input PROMPT l])%list)
        as (reqs & T & R).
      rewrite posts_app in T. simpl in T. rewrite app_nil_r in T.
      assert (Here : forall r,
                 In r (posts tr
                       ++ (of_env (VLLM_URL cfg), qwen_payload cfg l,
                           qwen_headers cfg) :: reqs)%list ->
                 In r (posts tr)
                 \/ analytical_request cfg (l :: rest) r
                 \/ persona_request w cfg (l :: rest) r).
      { intros r I. apply in_app_or in I. destruct I as [I|[I|I]].
        - left. exact I.
        - right. left. exists l. subst r.
          split; [left; reflexivity | split; [exact E | reflexivity]].
        - right. right.
          destruct R as [-> | (url & a & U & N & ->)]; [destruct I|].
          destruct I as [<- | []]. exists url, l, a.
          split; [exact U|]. split; [left; reflexivity|]. auto. }
      destruct (turn w cfg l (tr ++ [Input PROMPT l])%list) as [[u|e] tr1];
        simpl in T.
      * destruct (IH tr1 req H) as [I | [A | P]].
        -- apply Here. rewrite <- T. exact I.
        -- right. left. destruct A as (l' & I & N & ->).
           exists l'. split; [right; exact I | auto].
        -- right. right. destruct P as (url & l' & a & U & I & N & M & ->).
           exists url, l', a. split; [exact U|].
           split; [right; exact I | auto].
      * apply Here. rewrite <- T. exact H.
Qed.

(** X9.  Every request of a session is either the analytical request
    for one of the lines typed (the URL [VLLM_URL], the analytical
    headers) or a persona request about one of the lines typed (the URL
    of [PI_VERSION], the persona headers, [PI_VERSION] as the model):
    no other URL is contacted, and neither key is sent to the other
    service. *)
Theorem X9_requests_only_to_configured_endpoints w cfg stdin req :
  In req (posts (snd (main w cfg stdin []))) ->
  analytical_request cfg stdin req \/ persona_request w cfg stdin req.
Proof.
  destruct (version_ok (PI_VERSION cfg)) eqn:V.
  - rewrite (main_run_ok w cfg stdin [] V). intros H.
    apply session_loop_request_targets in H.
    destruct H as [[] | H]. exact H.
  - rewrite (main_run_invalid w cfg stdin [] V). intros [].
Qed.

Lemma X9_witness :
  In (JStr PI_URL_V2,
      pi_payload answering_world (JStr "Paris is the capital of France.")
        "What is the capital of France?" "Pi-3.1",
      pi_headers sample_config)
     (posts (snd (main answering_world sample_config
                    ["What is the capital of France?"; "EXIT"] [])))
  /\ (analytical_request sample_config
        ["What is the capital of France?"; "EXIT"]
        (JStr PI_URL_V2,
         pi_payload answering_world
           (JStr "Paris is the capital of France.")
           "What is the capital of France?" "Pi-3.1",
         pi_headers sample_config)
      \/ persona_request answering_world sample_config
           ["What is the capital of France?"; "EXIT"]
           (JStr PI_URL_V2,
            pi_payload answering_world
              (JStr "Paris is the capital of France.")
              "What is the capital of France?" "Pi-3.1",
            pi_headers sample_config)).
Proof.
  assert (I : In (JStr PI_URL_V2,
                  pi_payload answering_world
                    (JStr "Paris is the capital of France.")
                    "What is the capital of France?" "Pi-3.1",
                  pi_headers sample_config)
                 (posts (snd (main answering_world sample_config
                                ["What is the capital of France?"; "EXIT"]
                                [])))).
  { right. left. reflexivity. }
  split; [exact I|].
  apply (@X9_requests_only_to_configured_endpoints answering_world
           sample_config ["What is the capital of France?"; "EXIT"] _ I).
Defined.

(** X10.  What follows an exit line is never read: the outcome and the
    whole trace of the loop are the same whatever input comes after the
    first exit line. *)
Theorem X10_input_after_exit_is_ignored w cfg pre l suf tr :
  lower l = "exit" ->
  session_loop w cfg (pre ++ l :: suf) tr
  = session_loop w cfg (pre ++ [l]) tr.
Proof.
  intros L. apply String.eqb_eq in L. revert tr.
  induction pre as [|a pre IH]; intros tr.
  - simpl app. rewrite !session_loop_exit by exact L. reflexivity.
  - simpl app. destruct (String.eqb (lower a) "exit") eqn:E.
    + rewrite !session_loop_exit by exact E. reflexivity.
    + rewrite !session_loop_step by exact E. unfold bind.
      destruct (turn w cfg a (tr ++ [Input PROMPT a])%list) as [[u|e] tr1];
        [apply IH | reflexivity].
Qed.

Lemma X10_witness :
  lower "Exit" = "exit"
  /\ session_loop offline_world sample_config
       (["hello"] ++ "Exit" :: ["never"; "read"]) []
     = session_loop offline_world sample_config (["hello"] ++ ["Exit"]) [].
Proof.
  split; [reflexivity|].
  apply (@X10_input_after_exit_is_ignored offline_world sample_config
           ["hello"] "Exit" ["never"; "read"] []).
  reflexivity.
Defined.

(** X11.  The line a handler prints tells which clause ran and what the
    exception said: two handled exceptions that lead to the same
    printed line were handled by the same clause and have the same
    text. *)
Theorem X11_diagnostic_line_identifies_clause e1 e2 tr tr' :
  dispatch api_handlers e1 tr = (Ok JNull, tr') ->
  dispatch api_handlers e2 tr = (Ok JNull, tr') ->
  diagnostic_prefix e1 = diagnostic_prefix e2
  /\ exn_str e1 = exn_str e2
  /\ tr' = (tr ++ [Print (diagnostic_prefix e1 ++ exn_str e1)])%list.
Proof.
  rewrite !dispatch_api_handlers. intros H1 H2.
  destruct (diagnostic e1) as [d1|] eqn:D1; [|discriminate H1].
  destruct (diagnostic e2) as [d2|] eqn:D2; [|discriminate H2].
  injection H1 as <-. injection H2 as H2.
  apply app_inv_head in H2. injection H2 as ->.
  assert (X1 : isinstance e1 Exception = true).
  { destruct (isinstance e1 Exception) eqn:X; [reflexivity|].
    apply diagnostic_none_iff in X. congruence. }
  assert (X2 : isinstance e2 Exception = true).
  { destruct (isinstance e2 Exception) eqn:X; [reflexivity|].
    apply diagnostic_none_iff in X. congruence. }
  rewrite (diagnostic_prefix_spec e1 X1) in D1.
  rewrite (diagnostic_prefix_spec e2 X2) in D2.
  injection D1 as D1. injection D2 as D2.
  assert (P : diagnostic_prefix e1 = diagnostic_prefix e2).
  { rewrite <- D2 in D1. revert D1. unfold diagnostic_prefix.
    destruct (isinstance e1 ConnectionError),
      (isinstance e1 RequestException), (isinstance e1 KeyError),
      (isinstance e2 ConnectionError),
      (isinstance e2 RequestException), (isinstance e2 KeyError);
      intros D; first [reflexivity | simpl in D; discriminate D]. }
  split; [exact P|]. split.
  - rewrite <- D2, P in D1. apply append_inj_l in D1. exact D1.
  - rewrite D1. reflexivity.
Qed.

Lemma X11_witness :
  dispatch api_handlers (Exn Timeout "timed out") []
  = (Ok JNull, [Print "Request error occurred: timed out"])
  /\ diagnostic_prefix (Exn Timeout "timed out")
     = diagnostic_prefix (Exn HTTPError "timed out").
Proof.
  split; [reflexivity|].
  destruct (@X11_diagnostic_line_identifies_clause
              (Exn Timeout "timed out") (Exn HTTPError "timed out") []
              [Print "Request error occurred: timed out"]
              eq_refl eq_refl) as [H _].
  exact H.
Defined.

(** ** Sessions in which no interrupt arrives *)

Lemma getitem_raises_exception v k e :
  getitem v k = Raise e -> isinstance e Exception = true.
Proof.
  destruct v as [| | | |s|items|fields], k as [key|i]; simpl; intros H;
    try (injection H as <-; reflexivity).
  - destruct (seq_pos _ _) as [n|];
      [destruct (String.get n s)|]; try discriminate H;
      injection H as <-; reflexivity.
  - destruct (seq_pos _ _) as [n|];
      [destruct (nth_error items n)|]; try discriminate H;
      injection H as <-; reflexivity.
  - destruct (dict_get fields key); [discriminate H|].
    injection H as <-. reflexivity.
Qed.

Lemma first_choice_content_raises_exception d e :
  first_choice_content d = Raise e -> isinstance e Exception = true.
Proof.
  unfold first_choice_content. intros H.
  destruct (getitem d (Key "choices")) as [a|e1] eqn:E1;
    [|injection H as <-; eapply getitem_raises_exception; exact E1].
  destruct (getitem a (Idx 0)) as [b|e2] eqn:E2;
    [|injection H as <-; eapply getitem_raises_exception; exact E2].
  destruct (getitem b (Key "message")) as [c|e3] eqn:E3;
    [|injection H as <-; eapply getitem_raises_exception; exact E3].
  eapply getitem_raises_exception. exact H.
Qed.

Lemma body_outcome_raises_exception w tr url payload headers e :
  api_exceptions_only w ->
  body_outcome w tr url payload headers = Raise e ->
  isinstance e Exception = true.
Proof.
  intros A. specialize (A tr url payload headers). unfold body_outcome.
  destruct (requests_post w tr url payload headers) as [resp|e0].
  - destruct A as [A1 A2].
    destruct (raise_for_status resp) as [u|e1];
      [|intros H; injection H as <-; exact A1].
    destruct (response_json resp) as [d|e2];
      [|intros H; injection H as <-; exact A2].
    apply first_choice_content_raises_exception.
  - intros H. injection H as <-. exact A.
Qed.

Lemma api_call_returns w url payload headers tr :
  api_exceptions_only w ->
  exists r,
    fst (try_except (post_and_extract w url payload headers)
           api_handlers tr) = Ok r.
Proof.
  intros A. rewrite api_call_run.
  destruct (body_outcome w tr url payload headers) as [v|e] eqn:B.
  - exists v. reflexivity.
  - assert (X : isinstance e Exception = true)
      by (eapply body_outcome_raises_exception; eassumption).
    rewrite (diagnostic_prefix_spec e X). exists JNull. reflexivity.
Qed.

Lemma turn_returns w cfg l tr :
  api_exceptions_only w ->
  version_ok (PI_VERSION cfg) = true ->
  fst (turn w cfg l tr) = Ok tt.
Proof.
  intros A V. destruct (turn w cfg l tr) as [[[]|e] tr'] eqn:T;
    [reflexivity|].
  exfalso. rewrite turn_run in T.
  destruct (@api_call_returns w (of_env (VLLM_URL cfg)) (qwen_payload cfg l)
              (qwen_headers cfg) (tr ++ [Print THINKING_LINE])%list A)
    as [v G].
  fold (get_factual_answer_from_qwen w cfg l
          (tr ++ [Print THINKING_LINE])%list) in G.
  destruct (get_factual_answer_from_qwen w cfg l
              (tr ++ [Print THINKING_LINE])%list) as [[v'|e'] tr1];
    simpl in G; [|discriminate G].
  destruct (is_none v'); [discriminate T|].
  destruct (select_pi_url_ok _ V) as [url U].
  erewrite restyle_run_ok in T by exact U.
  match type of T with
  | context [try_except ?b ?h ?t0] =>
      destruct (@api_call_returns w (JStr url)
                  (pi_payload w v' l (PI_VERSION cfg)) (pi_headers cfg)
                  t0 A) as [p R];
      destruct (try_except b h t0) as [[p'|e''] tr2]
  end; simpl in R; [|discriminate R].
  destruct (is_none p'); discriminate T.
Qed.

Lemma session_loop_result w cfg stdin :
  api_exceptions_only w ->
  version_ok (PI_VERSION cfg) = true ->
  forall tr,
    fst (session_loop w cfg stdin tr)
    = if existsb is_exit stdin then Ok tt else Raise EOF_ERROR.
Proof.
  intros A V. induction stdin as [|l rest IH]; intros tr.
  - reflexivity.
  - simpl existsb. unfold is_exit at 1.
    destruct (String.eqb (lower l) "exit") eqn:E.
    + rewrite (session_loop_exit w cfg l rest tr E). reflexivity.
    + rewrite (session_loop_step w cfg l rest tr E). unfold bind.
      pose proof (@turn_returns w cfg l (tr ++ [Input PROMPT l])%list A V)
        as T.
      destruct (turn w cfg l (tr ++ [Input PROMPT l])%list) as [[u|e] tr1];
        simpl in T; [|discriminate T].
      simpl. apply IH.
Qed.

(** X13.  The analytical settings are not checked before use: with
    [VLLM_URL], [VLLM_MODEL_NAME] and [VLLM_API_KEY] all unset, the call
    still goes to [requests.post], with [None] as the URL, [null] as the
    model and the literal header [Bearer None]. *)
Theorem X13_unset_settings_are_sent_as_none w cfg q tr :
  VLLM_URL cfg = None ->
  VLLM_MODEL_NAME cfg = None ->
  VLLM_API_KEY cfg = None ->
  exists payload headers,
    posts (snd (get_factual_answer_from_qwen w cfg q tr))
    = (posts tr ++ [(JNull, payload, headers)])%list
    /\ getitem payload (Key "model") = Ok JNull
    /\ header_get headers "Authorization" = Some "Bearer None".
Proof.
  intros U M K. exists (qwen_payload cfg q), (qwen_headers cfg).
  rewrite get_factual_posts, U.
  unfold qwen_payload, qwen_headers. rewrite M, K.
  repeat split.
Qed.

Lemma X13_witness :
  VLLM_URL unset_config = None
  /\ exists payload headers,
       posts (snd (get_factual_answer_from_qwen offline_world unset_config
                     "hi" []))
       = [(JNull, payload, headers)]
       /\ getitem payload (Key "model") = Ok JNull
       /\ header_get headers "Authorization" = Some "Bearer None".
Proof.
  split; [reflexivity|].
  apply (@X13_unset_settings_are_sent_as_none offline_world unset_config
           "hi" [] eq_refl eq_refl eq_refl).
Defined.

(** * Sessions over a console and a network that can fail *)

Lemma api_call_io_run env url payload headers tr :
  try_except_io (post_and_extract_io env url payload headers)
    (api_handlers_io env) tr
  = if post_returns env tr url payload headers then
      match body_outcome (net env) tr url payload headers with
      | Ok v => (Done v, (tr ++ [HttpPost url payload headers])%list)
      | Raise e =>
          match diagnostic e with
          | Some d =>
              match print_raises env
                      (tr ++ [HttpPost url payload headers])%list d with
              | Some e' =>
                  (Raised e', (tr ++ [HttpPost url payload headers])%list)
              | None =>
                  (Done JNull,
                   (tr ++ [HttpPost url payload headers; Print d])%list)
              end
          | None => (Raised e, (tr ++ [HttpPost url payload headers])%list)
          end
      end
    else (Blocked, (tr ++ [HttpPost url payload headers])%list).
Proof.
  unfold try_except_io, post_and_extract_io, io_bind, post_io, io_lift,
    body_outcome.
  destruct (post_returns env tr url payload headers); [|reflexivity].
  assert (D : forall e t,
             dispatch_io (api_handlers_io env) e t
             = match diagnostic e with
               | Some d =>
                   match print_raises env t d with
                   | Some e' => (Raised e', t)
                   | None => (Done JNull, (t ++ [Print d])%list)
                   end
               | None => (Raised e, t)
               end).
  { intros e t. unfold diagnostic, api_handlers_io. simpl.
    unfold io_bind, print_io, io_ret, io_raise.
    destruct (isinstance e ConnectionError);
      [destruct (print_raises env t _); reflexivity|].
    destruct (isinstance e RequestException);
      [destruct (print_raises env t _); reflexivity|].
    destruct (isinstance e KeyError);
      [destruct (print_raises env t _); reflexivity|].
    destruct (isinstance e Exception);
      [destruct (print_raises env t _); reflexivity | reflexivity]. }
  destruct (requests_post (net env) tr url payload headers) as [resp|e];
    cbn [to_outcome].
  - destruct (raise_for_status resp) as [u|e]; cbn [to_outcome].
    + destruct (response_json resp) as [d|e]; cbn [to_outcome].
      * destruct (first_choice_content d) as [v|e]; cbn [to_outcome];
          [reflexivity|].
        rewrite D. destruct (diagnostic e) as [x|]; [|reflexivity].
        destruct (print_raises env _ x); [reflexivity|].
        rewrite <- app_assoc. reflexivity.
      * rewrite D. destruct (diagnostic e) as [x|]; [|reflexivity].
        destruct (print_raises env _ x); [reflexivity|].
        rewrite <- app_assoc. reflexivity.
    + rewrite D. destruct (diagnostic e) as [x|]; [|reflexivity].
      destruct (print_raises env _ x); [reflexivity|].
      rewrite <- app_assoc. reflexivity.
  - rewrite D. destruct (diagnostic e) as [x|]; [|reflexivity].
    destruct (print_raises env _ x); [reflexivity|].
    rewrite <- app_assoc. reflexivity.
Qed.


Lemma restyle_io_run_ok env cfg t q v url tr :
  select_pi_url v = Ok url ->
  restyle_text_with_pi_io env cfg t q v tr
  = try_except_io
      (post_and_extract_io env (JStr url) (pi_payload (net env) t q v)
         (pi_headers cfg))
      (api_handlers_io env) tr.
Proof.
  intros H. unfold restyle_text_with_pi_io, io_bind, io_lift.
  rewrite H. reflexivity.
Qed.



Lemma api_call_io_blocked env url payload headers tr tr' :
  try_except_io (post_and_extract_io env url payload headers)
    (api_handlers_io env) tr = (Blocked, tr') ->
  blocked_in_post env.
Proof.
  rewrite api_call_io_run.
  destruct (post_returns env tr url payload headers) eqn:B.
  - destruct (body_outcome (net env) tr url payload headers) as [v|e0];
      [discriminate|].
    destruct (diagnostic e0) as [d|]; [|discriminate].
    destruct (print_raises env _ d); discriminate.
  - intros _. exists tr, url, payload, headers. exact B.
Qed.

Ltac print_pass H :=
  match type of H with
  | context [print_raises ?env ?t ?l] =>
      destruct (print_raises env t l); [discriminate H|]
  end.

Lemma turn_io_blocked env cfg l tr tr' :
  turn_io env cfg l tr = (Blocked, tr') -> blocked_in_post env.
Proof.
  intros H. unfold turn_io, io_bind, print_io, io_ret in H.
  print_pass H.
  destruct (get_factual_answer_from_qwen_io env cfg l _)
    as [[v|e1|] tr1] eqn:G; [|discriminate H|].
  2:{ unfold get_factual_answer_from_qwen_io in G.
      eapply api_call_io_blocked. exact G. }
  destruct (is_none v); simpl in H; [discriminate H|].
  print_pass H. print_pass H. print_pass H.
  destruct (select_pi_url (PI_VERSION cfg)) as [url|e0] eqn:U.
  - erewrite restyle_io_run_ok in H by exact U.
    match type of H with
    | context [try_except_io ?b ?h ?t0] =>
        destruct (try_except_io b h t0) as [[p|e2|] tr2] eqn:R
    end; [|discriminate H|].
    + destruct (is_none p); simpl in H; [discriminate H|].
      print_pass H. print_pass H. discriminate H.
    + eapply api_call_io_blocked. exact R.
  - unfold restyle_text_with_pi_io, io_bind, io_lift in H.
    rewrite U in H. discriminate H.
Qed.

Lemma session_loop_io_exit env cfg l rest tr :
  lower l = "exit" ->
  session_loop_io env cfg (Ok l :: rest) tr
  = (Done tt, (tr ++ [Input PROMPT l])%list).
Proof.
  intros H. apply String.eqb_eq in H. simpl. unfold io_bind.
  rewrite H. reflexivity.
Qed.

Lemma session_loop_io_step env cfg l rest tr :
  lower l <> "exit" ->
  session_loop_io env cfg (Ok l :: rest) tr
  = (turn_io env cfg l ~;; session_loop_io env cfg rest)
      (tr ++ [Input PROMPT l])%list.
Proof.
  intros H. apply String.eqb_neq in H. simpl. unfold io_bind at 1.
  rewrite H. reflexivity.
Qed.



Lemma main_io_run_ok env cfg stdin tr :
  version_ok (PI_VERSION cfg) = true ->
  main_io env cfg stdin tr
  = match print_raises env tr
            ("Qwen-Pi CLI Chat. Using " ++ PI_VERSION cfg
             ++ " as Pi. Type 'exit' to quit.") with
    | Some e => (Raised e, tr)
    | None =>
        session_loop_io env cfg stdin
          (tr ++ [Print ("Qwen-Pi CLI Chat. Using " ++ PI_VERSION cfg
                         ++ " as Pi. Type 'exit' to quit.")])%list
    end.
Proof.
  unfold version_ok, main_io. intros V. apply negb_true_iff in V.
  rewrite V. unfold io_bind, print_io.
  destruct (print_raises env tr _); reflexivity.
Qed.

Lemma main_io_run_invalid env cfg stdin tr :
  version_ok (PI_VERSION cfg) = false ->
  main_io env cfg stdin tr
  = (Raised (Exn ValueError
               ("Invalid Pi version: " ++ PI_VERSION cfg
                ++ ", must be 'Pi-3.1' or 'inflection_3_pi'")), tr).
Proof.
  unfold version_ok, main_io. intros V. apply negb_false_iff in V.
  rewrite V. reflexivity.
Qed.

(** ** The two embeddings agree where nothing fails *)

Lemma api_call_io_quiet env url payload headers tr :
  quiet env ->
  try_except_io (post_and_extract_io env url payload headers)
    (api_handlers_io env) tr
  = embed (try_except (post_and_extract (net env) url payload headers)
             api_handlers tr).
Proof.
  intros [Qp Qr]. rewrite api_call_io_run, api_call_run, Qr.
  destruct (body_outcome (net env) tr url payload headers) as [v|e];
    [reflexivity|].
  destruct (diagnostic e) as [d|]; [|reflexivity].
  rewrite Qp. reflexivity.
Qed.

Lemma turn_io_quiet env cfg l tr :
  quiet env ->
  turn_io env cfg l tr = embed (turn (net env) cfg l tr).
Proof.
  intros Q. pose proof Q as [Qp Qr]. rewrite turn_run.
  unfold turn_io, io_bind, print_io, io_ret. rewrite Qp.
  unfold get_factual_answer_from_qwen_io, get_factual_answer_from_qwen.
  rewrite api_call_io_quiet by exact Q. unfold embed at 1.
  destruct (try_except _ api_handlers _) as [[v|e] tr1];
    cbn [fst snd to_outcome]; [|reflexivity].
  destruct (is_none v); cbn [negb]; [reflexivity|].
  rewrite !Qp, <- !app_assoc. cbn [app].
  destruct (select_pi_url (PI_VERSION cfg)) as [url|e] eqn:U.
  - erewrite restyle_io_run_ok, restyle_run_ok by exact U.
    rewrite api_call_io_quiet by exact Q. unfold embed at 1.
    destruct (try_except _ api_handlers _) as [[p|e] tr2];
      cbn [fst snd to_outcome]; [|reflexivity].
    destruct (is_none p); cbn [negb]; [reflexivity|].
    rewrite !Qp, <- !app_assoc. reflexivity.
  - erewrite restyle_run_invalid by exact U.
    unfold restyle_text_with_pi_io, io_bind, io_lift. rewrite U.
    reflexivity.
Qed.

Lemma session_loop_io_quiet env cfg lines :
  quiet env ->
  forall tr,
    session_loop_io env cfg (map Ok lines) tr
    = embed (session_loop (net env) cfg lines tr).
Proof.
  intros Q. induction lines as [|l rest IH]; intros tr.
  - reflexivity.
  - cbn [map]. destruct (String.eqb_spec (lower l) "exit") as [E|E].
    + rewrite (session_loop_io_exit env cfg l _ tr E).
      rewrite session_loop_exit by (apply String.eqb_eq; exact E).
      reflexivity.
    + rewrite (session_loop_io_step env cfg l _ tr E).
      rewrite session_loop_step by (apply String.eqb_neq; exact E).
      unfold io_bind, bind. rewrite turn_io_quiet by exact Q.
      unfold embed at 1.
      destruct (turn (net env) cfg l (tr ++ [Input PROMPT l])%list)
        as [[u|e] tr1]; cbn [fst snd to_outcome]; [apply IH | reflexivity].
Qed.

(** With a console that always writes and requests that always return,
    the program over the failing environment is the program of the
    first part. *)
Lemma main_io_quiet env cfg lines tr :
  quiet env ->
  main_io env cfg (map Ok lines) tr = embed (main (net env) cfg lines tr).
Proof.
  intros Q. destruct (version_ok (PI_VERSION cfg)) eqn:V.
  - rewrite (main_io_run_ok env cfg _ tr V), (main_run_ok _ cfg lines tr V).
    destruct Q as [Qp Qr]. rewrite Qp.
    apply session_loop_io_quiet. split; assumption.
  - rewrite (main_io_run_invalid env cfg _ tr V),
      (main_run_invalid _ cfg lines tr V).
    reflexivity.
Qed.



(** The faults the console and the network add, each run once. *)

Example main_io_interrupt_at_prompt :
  main_io (healthy answering_world) sample_config
    [Raise (Exn KeyboardInterrupt "")] []
  = (Raised (Exn KeyboardInterrupt ""),
     [Print "Qwen-Pi CLI Chat. Using Pi-3.1 as Pi. Type 'exit' to quit.";
      InputRaised PROMPT (Exn KeyboardInterrupt "")]).
Proof. reflexivity. Qed.

Example main_io_unprintable_answer :
  main_io unprintable_answer_env sample_config
    [Ok "What is the capital of France?"; Ok "exit"] []
  = (Raised (Exn ValueError "'utf-8' codec can't encode character"),
     [Print "Qwen-Pi CLI Chat. Using Pi-3.1 as Pi. Type 'exit' to quit.";
      Input PROMPT "What is the capital of France?";
      Print THINKING_LINE;
      HttpPost (of_env (VLLM_URL sample_config))
        (qwen_payload sample_config "What is the capital of France?")
        (qwen_headers sample_config);
      Print QWEN_LABEL]).
Proof. reflexivity. Qed.

Example main_io_service_never_answers :
  main_io silent_service_env sample_config [Ok "hello"; Ok "exit"] []
  = (Blocked,
     [Print "Qwen-Pi CLI Chat. Using Pi-3.1 as Pi. Type 'exit' to quit.";
      Input PROMPT "hello";
      Print THINKING_LINE;
      HttpPost (of_env (VLLM_URL sample_config))
        (qwen_payload sample_config "hello")
        (qwen_headers sample_config)]).
Proof. reflexivity. Qed.

(** ** Sessions in which the HTTP layer raises only [Exception]s *)

Lemma api_call_io_escape_print env url payload headers tr e tr' :
  api_exceptions_only (net env) ->
  try_except_io (post_and_extract_io env url payload headers)
    (api_handlers_io env) tr = (Raised e, tr') ->
  raised_by_print env e.
Proof.
  intros A. rewrite api_call_io_run.
  destruct (post_returns env tr url payload headers); [|discriminate].
  destruct (body_outcome (net env) tr url payload headers) as [v|e0] eqn:B;
    [discriminate|].
  assert (X : isinstance e0 Exception = true)
    by (eapply body_outcome_raises_exception; eassumption).
  rewrite (diagnostic_prefix_spec e0 X).
  destruct (print_raises env _ _) as [e'|] eqn:P; [|discriminate].
  intros H. injection H as <- _. eexists. eexists. exact P.
Qed.

Ltac print_step' H :=
  match type of H with
  | context [print_raises ?env ?t ?l] =>
      let e0 := fresh "e0" in
      let P := fresh "P" in
      destruct (print_raises env t l) as [e0|] eqn:P;
      [injection H as <- _; exists t, l; exact P|]
  end.

Lemma turn_io_escape_print env cfg l tr e tr' :
  api_exceptions_only (net env) ->
  version_ok (PI_VERSION cfg) = true ->
  turn_io env cfg l tr = (Raised e, tr') ->
  raised_by_print env e.
Proof.
  intros A V H. unfold turn_io, io_bind, print_io, io_ret in H.
  print_step' H.
  destruct (get_factual_answer_from_qwen_io env cfg l _)
    as [[v|e1|] tr1] eqn:G; [| |discriminate H].
  2:{ injection H as <- _. unfold get_factual_answer_from_qwen_io in G.
      eapply api_call_io_escape_print; eassumption. }
  destruct (is_none v); simpl in H; [discriminate H|].
  print_step' H. print_step' H. print_step' H.
  destruct (select_pi_url_ok _ V) as [url U].
  erewrite restyle_io_run_ok in H by exact U.
  match type of H with
  | context [try_except_io ?b ?h ?t0] =>
      destruct (try_except_io b h t0) as [[p|e2|] tr2] eqn:R
  end; [| |discriminate H].
  2:{ injection H as <- _. eapply api_call_io_escape_print; eassumption. }
  destruct (is_none p); simpl in H; [discriminate H|].
  print_step' H. print_step' H. discriminate H.
Qed.

Lemma session_loop_io_api_safe env cfg :
  api_exceptions_only (net env) ->
  version_ok (PI_VERSION cfg) = true ->
  forall lines tr,
    match fst (session_loop_io env cfg (map Ok lines) tr) with
    | Done _ => existsb is_exit lines = true
    | Raised e =>
        (e = EOF_ERROR /\ existsb is_exit lines = false)
        \/ raised_by_print env e
    | Blocked => blocked_in_post env
    end.
Proof.
  intros A V lines. induction lines as [|l rest IH]; intros tr.
  - simpl. left. split; reflexivity.
  - cbn [map existsb]. unfold is_exit at 1. unfold is_exit at 2.
    destruct (String.eqb_spec (lower l) "exit") as [E|E].
    + rewrite (session_loop_io_exit env cfg l _ tr E). reflexivity.
    + rewrite (session_loop_io_step env cfg l _ tr E). unfold io_bind.
      destruct (turn_io env cfg l (tr ++ [Input PROMPT l])%list)
        as [[u|e|] tr1] eqn:T.
      * cbn [orb]. apply IH.
      * simpl. right. eapply turn_io_escape_print; eassumption.
      * simpl. eapply turn_io_blocked. exact T.
Qed.

(** X12.  A failure of either service does not end the session.  When
    every exception the HTTP layer raises is an [Exception],
    [PI_VERSION] is recognised and [input] delivers lines until the
    input ends, a session ends normally only if some line is an exit
    line, and otherwise ends only with [EOFError] at the end of an input
    without exit line or with what a [print] raised; if it does not end
    it waits in a request that never returns.  If moreover every print
    succeeds and every request returns, it ends, normally exactly when
    some line is an exit line. *)
Theorem X12_api_failures_never_end_session env cfg lines :
  api_exceptions_only (net env) ->
  version_ok (PI_VERSION cfg) = true ->
  match fst (main_io env cfg (map Ok lines) []) with
  | Done _ => existsb is_exit lines = true
  | Raised e =>
      (e = EOF_ERROR /\ existsb is_exit lines = false)
      \/ raised_by_print env e
  | Blocked => blocked_in_post env
  end
  /\ (quiet env ->
      fst (main_io env cfg (map Ok lines) [])
      = if existsb is_exit lines then Done tt else Raised EOF_ERROR).
Proof.
  intros A V. split.
  - rewrite (main_io_run_ok env cfg _ [] V).
    destruct (print_raises env [] _) as [e|] eqn:P.
    + simpl. right. eexists. eexists. exact P.
    + apply session_loop_io_api_safe; assumption.
  - intros Q. rewrite (main_io_quiet cfg lines [] Q). unfold embed.
    cbn [fst]. rewrite (main_run_ok (net env) cfg lines [] V).
    rewrite (session_loop_result cfg lines A V).
    destruct (existsb is_exit lines); reflexivity.
Qed.

Lemma X12_witness :
  api_exceptions_only (net (healthy offline_world))
  /\ version_ok (PI_VERSION sample_config) = true
  /\ quiet (healthy offline_world)
  /\ fst (main_io (healthy offline_world) sample_config
            (map Ok ["one"; "two"; "eXiT"]) [])
     = Done tt.
Proof.
  assert (A : api_exceptions_only (net (healthy offline_world))).
  { intros tr url payload headers. reflexivity. }
  assert (Q : quiet (healthy offline_world)).
  { split; intros; reflexivity. }
  split; [exact A|]. split; [reflexivity|]. split; [exact Q|].
  destruct (@X12_api_failures_never_end_session (healthy offline_world)
              sample_config ["one"; "two"; "eXiT"] A eq_refl) as [_ H].
  exact (H Q).
Defined.
